(** * A page fetcher: link and asset extraction

    Shallow embedding of the two Go source files of the crawler:

    - the [HttpFetcher] methods ([extractLinks], [extractAssets],
      [extractValidHref], [normaliseUrl], [dedupeUrls]);
    - the standalone [extractLinks] / [fetch] / [Crawl] of [main.go].

    Go strings are byte sequences and are modelled by [string]; Go [int]s
    that hold indices are modelled by [Z] (with [-1] for "not found");
    a pointer that the code may find [nil] is an [option]; a nil-pointer
    dereference is the [Panic] outcome of the [go] monad. *)

From Stdlib Require Import ZArith Ascii String List Bool Lia.
From stdpp Require Import base option list strings gmap.

Local Open Scope Z_scope.
Local Open Scope list_scope.

Notation "a =s b" := (String.eqb a b) (at level 70, no associativity).

(** ** Outcomes of Go code that may dereference a nil pointer *)

Inductive go (A : Type) : Type :=
| Ret (a : A)
| Panic.
Arguments Ret {A} a.
Arguments Panic {A}.

Global Instance go_ret : MRet go := fun A a => Ret a.
Global Instance go_bind : MBind go := fun A B k m =>
  match m with
  | Ret a => k a
  | Panic => Panic
  end.

(** [*p] for a pointer [p] *)
Definition deref {A} (p : option A) : go A :=
  match p with
  | Some a => Ret a
  | None => Panic
  end.

(** [p != nil] *)
Definition notNil {A} (p : option A) : bool :=
  match p with
  | Some _ => true
  | None => false
  end.

(** ** Package [strings] (the functions the sources and [net/url] use) *)

Module strings.

Definition HasPrefix (s prefix : string) : bool := String.prefix prefix s.

Fixpoint index_nat (s sep : string) : option nat :=
  if String.prefix sep s then Some 0%nat
  else match s with
       | EmptyString => None
       | String _ s' => option_map S (index_nat s' sep)
       end.

(** [strings.Index]: first byte offset of [sep] in [s], or [-1] *)
Definition Index (s sep : string) : Z :=
  match index_nat s sep with
  | Some i => Z.of_nat i
  | None => -1
  end.

Fixpoint lastIndex_nat (s sep : string) : option nat :=
  match s with
  | EmptyString => if String.prefix sep s then Some 0%nat else None
  | String _ s' =>
      match lastIndex_nat s' sep with
      | Some i => Some (S i)
      | None => if String.prefix sep s then Some 0%nat else None
      end
  end.

(** [strings.LastIndex]: last byte offset of [sep] in [s], or [-1] *)
Definition LastIndex (s sep : string) : Z :=
  match lastIndex_nat s sep with
  | Some i => Z.of_nat i
  | None => -1
  end.

Definition Contains (s sep : string) : bool := 0 <=? Index s sep.

(** [s[:i]] and [s[i:]] for an index within bounds *)
Definition slice_to (s : string) (i : Z) : string :=
  String.substring 0 (Z.to_nat i) s.
Definition slice_from (s : string) (i : Z) : string :=
  String.substring (Z.to_nat i) (String.length s - Z.to_nat i) s.

(** [strings.Cut]: split around the first [sep] *)
Definition Cut (s sep : string) : string * string * bool :=
  let i := Index s sep in
  if 0 <=? i
  then (slice_to s i, slice_from s (i + Z.of_nat (String.length sep)), true)
  else (s, EmptyString, false).

Fixpoint rev_acc (s acc : string) : string :=
  match s with
  | EmptyString => acc
  | String c s' => rev_acc s' (String c acc)
  end.
Definition rev (s : string) : string := rev_acc s EmptyString.

Definition HasSuffix (s suffix : string) : bool :=
  String.prefix (rev suffix) (rev s).

(** [strings.Count] for a one-byte separator *)
Fixpoint CountByte (s : string) (c : ascii) : Z :=
  match s with
  | EmptyString => 0
  | String c' s' => (if Ascii.eqb c' c then 1 else 0) + CountByte s' c
  end.

Definition lowerByte (c : ascii) : ascii :=
  let n := N_of_ascii c in
  if ((65 <=? n) && (n <=? 90))%N then ascii_of_N (n + 32) else c.

(** [strings.ToLower] on the ASCII range *)
Fixpoint ToLower (s : string) : string :=
  match s with
  | EmptyString => EmptyString
  | String c s' => String (lowerByte c) (ToLower s')
  end.

End strings.

(** ** Package [net/url]

  The fetcher calls [Parse] and the [URL] methods [ResolveReference]
  and [String] of the Go standard library.  The module below follows
  the library's code (Go 1.22) function by function; an error result is
  [None].  The code of the fetcher itself is stated over the interface
  [NetUrl] further down, of which this module is the instance. *)

Module url.

Record Userinfo : Type := {
  username : string;
  password : string;
  passwordSet : bool
}.

Record URL : Type := {
  Scheme : string;
  Opaque : string;
  User : option Userinfo;
  Host : string;
  Path : string;
  RawPath : string;
  OmitHost : bool;
  ForceQuery : bool;
  RawQuery : string;
  Fragment : string;
  RawFragment : string
}.

Definition zero : URL :=
  {| Scheme := ""; Opaque := ""; User := None; Host := ""; Path := "";
     RawPath := ""; OmitHost := false; ForceQuery := false; RawQuery := "";
     Fragment := ""; RawFragment := "" |}.

Definition set_host_user (u : URL) (usr : option Userinfo) (h : string) : URL :=
  {| Scheme := Scheme u; Opaque := Opaque u; User := usr; Host := h;
     Path := Path u; RawPath := RawPath u; OmitHost := OmitHost u;
     ForceQuery := ForceQuery u; RawQuery := RawQuery u;
     Fragment := Fragment u; RawFragment := RawFragment u |}.

Definition set_paths (u : URL) (p raw : string) : URL :=
  {| Scheme := Scheme u; Opaque := Opaque u; User := User u; Host := Host u;
     Path := p; RawPath := raw; OmitHost := OmitHost u;
     ForceQuery := ForceQuery u; RawQuery := RawQuery u;
     Fragment := Fragment u; RawFragment := RawFragment u |}.

Definition set_fragments (u : URL) (f raw : string) : URL :=
  {| Scheme := Scheme u; Opaque := Opaque u; User := User u; Host := Host u;
     Path := Path u; RawPath := RawPath u; OmitHost := OmitHost u;
     ForceQuery := ForceQuery u; RawQuery := RawQuery u;
     Fragment := f; RawFragment := raw |}.

Inductive encoding : Type :=
| encodePath | encodePathSegment | encodeHost | encodeZone
| encodeUserPassword | encodeQueryComponent | encodeFragment.

Definition encoding_eqb (a b : encoding) : bool :=
  match a, b with
  | encodePath, encodePath | encodePathSegment, encodePathSegment
  | encodeHost, encodeHost | encodeZone, encodeZone
  | encodeUserPassword, encodeUserPassword
  | encodeQueryComponent, encodeQueryComponent
  | encodeFragment, encodeFragment => true
  | _, _ => false
  end.

Definition byte (c : ascii) : N := N_of_ascii c.
Definition between (lo hi c : ascii) : bool :=
  ((byte lo <=? byte c) && (byte c <=? byte hi))%N.
Definition isAlpha (c : ascii) : bool := between "a" "z" c || between "A" "Z" c.
Definition isDigit (c : ascii) : bool := between "0" "9" c.
Definition oneOf (set : string) (c : ascii) : bool :=
  existsb (Ascii.eqb c) (list_ascii_of_string set).

Definition dquote : ascii := ascii_of_N 34.

Definition ishex (c : ascii) : bool :=
  isDigit c || between "a" "f" c || between "A" "F" c.

Definition unhex (c : ascii) : N :=
  if isDigit c then (byte c - 48)%N
  else if between "a" "f" c then (byte c - 97 + 10)%N
  else if between "A" "F" c then (byte c - 65 + 10)%N
  else 0%N.

Definition shouldEscape (c : ascii) (mode : encoding) : bool :=
  if isAlpha c || isDigit c then false
  else if (encoding_eqb mode encodeHost || encoding_eqb mode encodeZone)
          && (oneOf "!$&'()*+,;=:[]<>" c || Ascii.eqb c dquote) then false
  else if oneOf "-_.~" c then false
  else if oneOf "$&+,/:;=?@" c
          && match mode with
             | encodePath | encodePathSegment | encodeUserPassword
             | encodeQueryComponent | encodeFragment => true
             | _ => false
             end
  then match mode with
       | encodePath => Ascii.eqb c "?"
       | encodePathSegment => oneOf "/;,?" c
       | encodeUserPassword => oneOf "@/?:" c
       | encodeQueryComponent => true
       | _ => false
       end
  else if encoding_eqb mode encodeFragment && oneOf "!()*" c then false
  else true.

(** [unescape]: checks the %-escapes of [s] for [mode] and decodes them.
    The library makes a checking pass and then a decoding pass; here a
    byte is decoded as soon as it is checked. *)
Fixpoint unescape (s : string) (mode : encoding) : option string :=
  match s with
  | EmptyString => Some EmptyString
  | String c rest =>
      if Ascii.eqb c "%" then
        match rest with
        | String h1 (String h2 rest') =>
            if negb (ishex h1 && ishex h2) then None
            else
              let v := ascii_of_N (unhex h1 * 16 + unhex h2) in
              let is25 := Ascii.eqb h1 "2" && Ascii.eqb h2 "5" in
              if encoding_eqb mode encodeHost && (unhex h1 <? 8)%N && negb is25
              then None
              else if encoding_eqb mode encodeZone && negb is25
                      && negb (Ascii.eqb v " ") && shouldEscape v encodeHost
              then None
              else option_map (String v) (unescape rest' mode)
        | _ => None
        end
      else if Ascii.eqb c "+" then
        option_map
          (String (if encoding_eqb mode encodeQueryComponent then " "%char else c))
          (unescape rest mode)
      else if (encoding_eqb mode encodeHost || encoding_eqb mode encodeZone)
              && (byte c <? 128)%N && shouldEscape c encodeHost
      then None
      else option_map (String c) (unescape rest mode)
  end.

Definition upperhex (n : N) : ascii :=
  nth (N.to_nat n) (list_ascii_of_string "0123456789ABCDEF") "0"%char.

(** [escape] *)
Fixpoint escape (s : string) (mode : encoding) : string :=
  match s with
  | EmptyString => EmptyString
  | String c rest =>
      if shouldEscape c mode then
        if Ascii.eqb c " " && encoding_eqb mode encodeQueryComponent
        then String "+" (escape rest mode)
        else String "%" (String (upperhex (byte c / 16))
               (String (upperhex (byte c mod 16)) (escape rest mode)))
      else String c (escape rest mode)
  end.

(** [validEncoded] *)
Fixpoint validEncoded (s : string) (mode : encoding) : bool :=
  match s with
  | EmptyString => true
  | String c rest =>
      (if oneOf "!$&'()*+,;=:@[]%" c then true else negb (shouldEscape c mode))
      && validEncoded rest mode
  end.

Fixpoint stringContainsCTLByte (s : string) : bool :=
  match s with
  | EmptyString => false
  | String c rest =>
      (byte c <? 32)%N || (byte c =? 127)%N || stringContainsCTLByte rest
  end.

(** [getScheme]: [i] is the loop index, [rest] is [rawURL[i:]] *)
Fixpoint getScheme_loop (rawURL rest : string) (i : nat) : option (string * string) :=
  match rest with
  | EmptyString => Some (EmptyString, rawURL)
  | String c rest' =>
      if isAlpha c then getScheme_loop rawURL rest' (S i)
      else if isDigit c || oneOf "+-." c then
        match i with
        | O => Some (EmptyString, rawURL)
        | _ => getScheme_loop rawURL rest' (S i)
        end
      else if Ascii.eqb c ":" then
        match i with
        | O => None
        | _ => Some (String.substring 0 i rawURL, rest')
        end
      else Some (EmptyString, rawURL)
  end.

Definition getScheme (rawURL : string) : option (string * string) :=
  getScheme_loop rawURL rawURL 0.

(** [validOptionalPort] *)
Definition validOptionalPort (port : string) : bool :=
  match port with
  | EmptyString => true
  | String c digits =>
      Ascii.eqb c ":" && forallb isDigit (list_ascii_of_string digits)
  end.

(** [validUserinfo] *)
Definition validUserinfo (s : string) : bool :=
  forallb (fun c => isAlpha c || isDigit c || oneOf "-._:~!$&'()*+,;=%@" c)
          (list_ascii_of_string s).

(** [parseHost] *)
Definition parseHost (host : string) : option string :=
  if strings.HasPrefix host "[" then
    let i := strings.LastIndex host "]" in
    if i <? 0 then None
    else
      let colonPort := strings.slice_from host (i + 1) in
      if negb (validOptionalPort colonPort) then None
      else
        let zone := strings.Index (strings.slice_to host i) "%25" in
        if 0 <=? zone then
          host1 ← unescape (strings.slice_to host zone) encodeHost;
          host2 ← unescape (strings.slice_to (strings.slice_from host zone) (i - zone))
                           encodeZone;
          host3 ← unescape (strings.slice_from host i) encodeHost;
          Some (host1 ++ host2 ++ host3)%string
        else unescape host encodeHost
  else
    let i := strings.LastIndex host ":" in
    if negb (i =? -1) && negb (validOptionalPort (strings.slice_from host i))
    then None
    else unescape host encodeHost.

(** [parseAuthority] *)
Definition parseAuthority (authority : string) : option (option Userinfo * string) :=
  let i := strings.LastIndex authority "@" in
  host ← (if i <? 0 then parseHost authority
          else parseHost (strings.slice_from authority (i + 1)));
  if i <? 0 then Some (None, host)
  else
    let userinfo := strings.slice_to authority i in
    if negb (validUserinfo userinfo) then None
    else if negb (strings.Contains userinfo ":") then
      name ← unescape userinfo encodeUserPassword;
      Some (Some {| username := name; password := ""; passwordSet := false |}, host)
    else
      let '(name, pass, _) := strings.Cut userinfo ":" in
      name' ← unescape name encodeUserPassword;
      pass' ← unescape pass encodeUserPassword;
      Some (Some {| username := name'; password := pass'; passwordSet := true |}, host).

(** [(u *URL) setPath] *)
Definition setPath (u : URL) (p : string) : option URL :=
  path ← unescape p encodePath;
  Some (set_paths u path (if p =s escape path encodePath then "" else p)).

(** [(u *URL) setFragment] *)
Definition setFragment (u : URL) (f : string) : option URL :=
  frag ← unescape f encodeFragment;
  Some (set_fragments u frag (if f =s escape frag encodeFragment then "" else f)).

(** [parse] *)
Definition parse (rawURL : string) (viaRequest : bool) : option URL :=
  if stringContainsCTLByte rawURL then None
  else if (rawURL =s "") && viaRequest then None
  else if rawURL =s "*" then Some (set_paths zero "*" "")
  else
    '(scheme, rest) ← getScheme rawURL;
    let scheme := strings.ToLower scheme in
    let '(rest, forceQuery, rawQuery) :=
      if strings.HasSuffix rest "?" && (strings.CountByte rest "?" =? 1)
      then (strings.slice_to rest (Z.of_nat (String.length rest) - 1), true, EmptyString)
      else let '(before, after, _) := strings.Cut rest "?" in (before, false, after) in
    let u :=
      {| Scheme := scheme; Opaque := ""; User := None; Host := ""; Path := "";
         RawPath := ""; OmitHost := false; ForceQuery := forceQuery;
         RawQuery := rawQuery; Fragment := ""; RawFragment := "" |} in
    let rooted := strings.HasPrefix rest "/" in
    if negb rooted && negb (scheme =s "") then
      (* rootless path after a scheme: opaque *)
      Some {| Scheme := scheme; Opaque := rest; User := None; Host := ""; Path := "";
              RawPath := ""; OmitHost := false; ForceQuery := forceQuery;
              RawQuery := rawQuery; Fragment := ""; RawFragment := "" |}
    else if negb rooted && viaRequest then None
    else if negb rooted && strings.Contains (strings.Cut rest "/").1.1 ":" then None
    else if (negb (scheme =s "") || negb viaRequest && negb (strings.HasPrefix rest "///"))
            && strings.HasPrefix rest "//" then
      let authority := strings.slice_from rest 2 in
      let i := strings.Index authority "/" in
      let '(authority, rest) :=
        if 0 <=? i then (strings.slice_to authority i, strings.slice_from authority i)
        else (authority, EmptyString) in
      '(usr, host) ← parseAuthority authority;
      setPath (set_host_user u usr host) rest
    else if negb (scheme =s "") && strings.HasPrefix rest "/" then
      setPath {| Scheme := scheme; Opaque := ""; User := None; Host := ""; Path := "";
                 RawPath := ""; OmitHost := true; ForceQuery := forceQuery;
                 RawQuery := rawQuery; Fragment := ""; RawFragment := "" |} rest
    else setPath u rest.

(** [Parse] *)
Definition Parse (rawURL : string) : option URL :=
  let '(u, frag, _) := strings.Cut rawURL "#" in
  url ← parse u false;
  if frag =s "" then Some url else setFragment url frag.

(** [(u *URL) EscapedPath] *)
Definition EscapedPath (u : URL) : string :=
  if negb (RawPath u =s "") && validEncoded (RawPath u) encodePath
     && match unescape (RawPath u) encodePath with
        | Some p => p =s Path u
        | None => false
        end
  then RawPath u
  else if Path u =s "*" then "*"
  else escape (Path u) encodePath.

(** [(u *URL) EscapedFragment] *)
Definition EscapedFragment (u : URL) : string :=
  if negb (RawFragment u =s "") && validEncoded (RawFragment u) encodeFragment
     && match unescape (RawFragment u) encodeFragment with
        | Some f => f =s Fragment u
        | None => false
        end
  then RawFragment u
  else escape (Fragment u) encodeFragment.

(** [(u *URL) IsAbs] *)
Definition IsAbs (u : URL) : bool := negb (Scheme u =s "").

(** [strings.Split] on ["/"] *)
Fixpoint splitSlash (s cur : string) : list string :=
  match s with
  | EmptyString => [strings.rev cur]
  | String c rest =>
      if Ascii.eqb c "/" then strings.rev cur :: splitSlash rest EmptyString
      else splitSlash rest (String c cur)
  end.

(** One turn of the loop of [resolvePath]; the state is the builder
    [dst] and the flag [first]. *)
Definition resolveStep (st : string * bool) (elem : string) : string * bool :=
  let '(dst, first) := st in
  if elem =s "." then (dst, false)
  else if elem =s ".." then
    let str := strings.slice_from dst 1 in
    let index := strings.LastIndex str "/" in
    if index =? -1 then ("/"%string, true)
    else (("/" ++ strings.slice_to str index)%string, first)
  else ((dst ++ (if first then "" else "/") ++ elem)%string, false).

(** [resolvePath] *)
Definition resolvePath (base ref : string) : string :=
  let full :=
    match ref with
    | EmptyString => base
    | String c _ =>
        if negb (Ascii.eqb c "/")
        then (strings.slice_to base (strings.LastIndex base "/" + 1) ++ ref)%string
        else ref
    end in
  if full =s "" then EmptyString
  else
    let elems := splitSlash full EmptyString in
    let '(dst, _) := fold_left resolveStep elems ("/"%string, true) in
    let elem := List.last elems EmptyString in
    let r := if (elem =s ".") || (elem =s "..") then (dst ++ "/")%string else dst in
    match r with
    | String _ (String c _) => if Ascii.eqb c "/" then strings.slice_from r 1 else r
    | _ => r
    end.

Definition setPath_ignoring_error (u : URL) (p : string) : URL :=
  match setPath u p with
  | Some u' => u'
  | None => u
  end.

(** [(u *URL) ResolveReference], for a non-nil receiver [u] *)
Definition ResolveReference (u ref : URL) : URL :=
  let scheme := if Scheme ref =s "" then Scheme u else Scheme ref in
  let url0 :=
    {| Scheme := scheme; Opaque := Opaque ref; User := User ref; Host := Host ref;
       Path := Path ref; RawPath := RawPath ref; OmitHost := OmitHost ref;
       ForceQuery := ForceQuery ref; RawQuery := RawQuery ref;
       Fragment := Fragment ref; RawFragment := RawFragment ref |} in
  if negb (Scheme ref =s "") || negb (Host ref =s "") || notNil (User ref) then
    setPath_ignoring_error url0 (resolvePath (EscapedPath ref) "")
  else if negb (Opaque ref =s "") then
    set_paths (set_host_user url0 None "") "" (RawPath ref)
  else
    let inherit := (Path ref =s "") && negb (ForceQuery ref) && (RawQuery ref =s "") in
    let rawQuery := if inherit then RawQuery u else RawQuery ref in
    let '(frag, rawFrag) :=
      if inherit && (Fragment ref =s "") then (Fragment u, RawFragment u)
      else (Fragment ref, RawFragment ref) in
    if (Path ref =s "") && negb (Opaque u =s "") then
      {| Scheme := scheme; Opaque := Opaque u; User := None; Host := "";
         Path := ""; RawPath := RawPath ref; OmitHost := OmitHost ref;
         ForceQuery := ForceQuery ref; RawQuery := rawQuery;
         Fragment := frag; RawFragment := rawFrag |}
    else
      setPath_ignoring_error
        {| Scheme := scheme; Opaque := Opaque ref; User := User u; Host := Host u;
           Path := Path ref; RawPath := RawPath ref; OmitHost := OmitHost ref;
           ForceQuery := ForceQuery ref; RawQuery := rawQuery;
           Fragment := frag; RawFragment := rawFrag |}
        (resolvePath (EscapedPath u) (EscapedPath ref)).

(** [ResolveReference] called on a nil receiver: the receiver is only
    dereferenced when the reference has no scheme. *)
Definition ResolveReference_nil (ref : URL) : go URL :=
  if Scheme ref =s "" then Panic
  else Ret (setPath_ignoring_error ref (resolvePath (EscapedPath ref) "")).

(** [(u *Userinfo) String] *)
Definition Userinfo_String (ui : Userinfo) : string :=
  (escape (username ui) encodeUserPassword ++
   if passwordSet ui then ":" ++ escape (password ui) encodeUserPassword else "")%string.

(** [(u *URL) String] *)
Definition String (u : URL) : string :=
  let buf0 := if Scheme u =s "" then EmptyString else (Scheme u ++ ":")%string in
  let buf1 :=
    if negb (Opaque u =s "") then (buf0 ++ Opaque u)%string
    else
      let buf :=
        if negb (Scheme u =s "") || negb (Host u =s "") || notNil (User u) then
          if OmitHost u && (Host u =s "") && negb (notNil (User u)) then buf0
          else
            (buf0
             ++ (if negb (Host u =s "") || negb (Path u =s "") || notNil (User u)
                 then "//" else "")
             ++ match User u with
                | Some ui => Userinfo_String ui ++ "@"
                | None => ""
                end
             ++ (if Host u =s "" then "" else escape (Host u) encodeHost))%string
        else buf0 in
      let path := EscapedPath u in
      let buf :=
        if negb (path =s "") && negb (strings.HasPrefix path "/") && negb (Host u =s "")
        then (buf ++ "/")%string else buf in
      let buf :=
        if (buf =s "") && strings.Contains (strings.Cut path "/").1.1 ":"
        then (buf ++ "./")%string else buf in
      (buf ++ path)%string in
  let buf2 :=
    if ForceQuery u || negb (RawQuery u =s "")
    then (buf1 ++ "?" ++ RawQuery u)%string else buf1 in
  if negb (Fragment u =s "") then (buf2 ++ "#" ++ EscapedFragment u)%string else buf2.

End url.

(** ** What the fetcher imports

  [NetUrl] is the part of [net/url] the fetcher uses.  [Parse] returns
  [None] where the library returns a non-nil error. *)

Class NetUrl : Type := {
URL : Type;
Parse : string -> option URL;
(** [u.ResolveReference(ref)] for a non-nil receiver *)
ResolveReference : URL -> URL -> URL;
(** the same call on a nil receiver *)
ResolveReferenceNil : URL -> go URL;
(** [u.String()] *)
URLString : URL -> string
}.

Global Instance GoUrl : NetUrl := {|
URL := url.URL;
Parse := url.Parse;
ResolveReference := url.ResolveReference;
ResolveReferenceNil := url.ResolveReference_nil;
URLString := url.String
|}.

(** Package [html/atom]: only the identity of the anchor atom matters. *)
Module atom.
Definition Atom : Type := N.
Definition A : Atom := 1%N.
End atom.

(** Package [html]: the fields of a node that the fetcher reads. *)
Module html.

Inductive NodeType : Type :=
| ErrorNode | TextNode | DocumentNode | ElementNode | CommentNode | DoctypeNode.

Definition NodeType_eqb (a b : NodeType) : bool :=
  match a, b with
  | ErrorNode, ErrorNode | TextNode, TextNode | DocumentNode, DocumentNode
  | ElementNode, ElementNode | CommentNode, CommentNode
  | DoctypeNode, DoctypeNode => true
  | _, _ => false
  end.

Record Attribute : Type := {
  Namespace : string;
  Key : string;
  Val : string
}.

Record Node : Type := {
  Type_ : NodeType;
  DataAtom : atom.Atom;
  Data : string;
  Attr : list Attribute
}.

End html.

(** Package [goquery]: a selection is a slice of node pointers; a document
  answers tag queries ([Find]) with a selection pointer and carries the
  URL it was fetched from. *)
Module goquery.

Record Selection : Type := {
  Nodes : list (option html.Node)
}.

Record Document {lib : NetUrl} : Type := {
  Find : string -> option Selection;
  Url : option URL
}.

End goquery.

(** Go [error] values: the two that the fetcher declares, and the errors
    of its collaborators. *)
Inductive error : Type :=
| InvalidNode
| InvalidNodeAttributeMissing
| OtherError (msg : string).

(** ** The fetcher ([HttpFetcher] methods) *)

Module HttpFetcher.
Section Fetcher.

Context {lib : NetUrl}.

(** [normaliseUrl] converts relative URLs to absolute URLs. *)
Definition normaliseUrl (parent : option URL) (urlString : string) : go (option URL) :=
  (* Strip off fragment *)
  let i := strings.LastIndex urlString "#" in
  let urlString := if 0 <=? i then strings.slice_to urlString i else urlString in
  (* Parse the string into a url.URL *)
  match Parse urlString with
  | None => Ret None
  | Some uri =>
      (* Resolve references to get an absolute URL *)
      abs ← match parent with
            | Some p => Ret (ResolveReference p uri)
            | None => ResolveReferenceNil uri
            end;
      Ret (Some abs)
  end.

(** The loop of [dedupeUrls]: [seen] is the lookup map, [ret] the output. *)
Fixpoint dedupeLoop (original : list URL) (seen : gmap string bool) (ret : list URL)
  : list URL :=
  match original with
  | [] => ret
  | u :: rest =>
      match seen !! URLString u with
      | Some _ => dedupeLoop rest seen ret
      | None => dedupeLoop rest (<[URLString u := true]> seen) (ret ++ [u])
      end
  end.

Definition dedupeUrls (original : list URL) : list URL :=
  dedupeLoop original ∅ [].

(** The attribute loop of [extractValidHref]. *)
Fixpoint hrefLoop (attrs : list html.Attribute) : string * option error :=
  match attrs with
  | [] => (EmptyString, Some InvalidNodeAttributeMissing)
  | a :: rest =>
      if (html.Key a =s "href") && negb (html.Val a =s "")
      then (html.Val a, None)
      else hrefLoop rest
  end.

(** [extractValidHref]: the node is an anchor with a href. *)
Definition extractValidHref (n : option html.Node) : string * option error :=
  match n with
  | None => (EmptyString, Some InvalidNode)
  | Some n =>
      if negb (html.NodeType_eqb (html.Type_ n) html.ElementNode)
         || negb (N.eqb (html.DataAtom n) atom.A)
      then (EmptyString, Some InvalidNode)
      else hrefLoop (html.Attr n)
  end.

(** The node loop of [extractLinks]. *)
Fixpoint linksLoop (docUrl : option URL) (nodes : list (option html.Node))
         (urls : list URL) : go (list URL) :=
  match nodes with
  | [] => Ret urls
  | n :: rest =>
      let '(href, err) := extractValidHref n in
      if notNil err || (href =s "") then linksLoop docUrl rest urls
      else
        uri ← normaliseUrl docUrl href;
        match uri with
        | Some u => linksLoop docUrl rest (urls ++ [u])
        | None => linksLoop docUrl rest urls
        end
  end.

(** [extractLinks] from a document *)
Definition extractLinks (doc : option goquery.Document)
  : go (list URL * option error) :=
  d ← deref doc;
  match goquery.Find d "a" with
  | None => Ret ([], None)
  | Some sel =>
      urls ← linksLoop (goquery.Url d) (goquery.Nodes sel) [];
      Ret (dedupeUrls urls, None)
  end.

(** The attribute loop of the image and script passes of
    [extractAssets] (the two passes have the same body). *)
Fixpoint srcLoop (docUrl : option URL) (attrs : list html.Attribute)
         (assets : list URL) : go (list URL) :=
  match attrs with
  | [] => Ret assets
  | a :: rest =>
      if (html.Key a =s "src") && negb (html.Val a =s "") then
        uri ← normaliseUrl docUrl (html.Val a);
        match uri with
        | Some u => Ret (assets ++ [u])
        | None => srcLoop docUrl rest assets
        end
      else srcLoop docUrl rest assets
  end.

(** The node loop of the image and script passes. *)
Fixpoint srcNodes (docUrl : option URL) (nodes : list (option html.Node))
         (assets : list URL) : go (list URL) :=
  match nodes with
  | [] => Ret assets
  | None :: rest => srcNodes docUrl rest assets
  | Some n :: rest =>
      assets' ← srcLoop docUrl (html.Attr n) assets;
      srcNodes docUrl rest assets'
  end.

(** The attribute loop of the "link" pass; the state is [rel],
    [linktype] and [uri]. *)
Fixpoint linkLoop (docUrl : option URL) (attrs : list html.Attribute)
         (st : string * string * option URL) : go (string * string * option URL) :=
  match attrs with
  | [] => Ret st
  | a :: rest =>
      let '(rel, linktype, uri) := st in
      if html.Key a =s "rel" then linkLoop docUrl rest (html.Val a, linktype, uri)
      else if html.Key a =s "type" then linkLoop docUrl rest (rel, html.Val a, uri)
      else if html.Key a =s "href" then
        uri' ← normaliseUrl docUrl (html.Val a);
        linkLoop docUrl rest (rel, linktype, uri')
      else linkLoop docUrl rest st
  end.

(** The node loop of the "link" pass. *)
Fixpoint linkNodes (docUrl : option URL) (nodes : list (option html.Node))
         (assets : list URL) : go (list URL) :=
  match nodes with
  | [] => Ret assets
  | None :: rest => linkNodes docUrl rest assets
  | Some n :: rest =>
      '(rel, linktype, uri) ← linkLoop docUrl (html.Attr n) (EmptyString, EmptyString, None);
      match uri with
      | None => linkNodes docUrl rest assets
      | Some u =>
          if (rel =s "stylesheet") && (linktype =s "text/css")
          then linkNodes docUrl rest (assets ++ [u])
          else if rel =s "shortcut icon"
          then linkNodes docUrl rest (assets ++ [u])
          else linkNodes docUrl rest assets
      end
  end.

(** [extractAssets] from a document *)
Definition extractAssets (doc : option goquery.Document)
  : go (list URL * option error) :=
  d ← deref doc;
  (* First grab all the images *)
  sel ← deref (goquery.Find d "img");
  assets ← srcNodes (goquery.Url d) (goquery.Nodes sel) [];
  (* Next scripts *)
  sel ← deref (goquery.Find d "script");
  assets ← srcNodes (goquery.Url d) (goquery.Nodes sel) assets;
  (* Links, eg styles, shortcut icons etc *)
  sel ← deref (goquery.Find d "link");
  assets ← linkNodes (goquery.Url d) (goquery.Nodes sel) assets;
  Ret (dedupeUrls assets, None).

(** [goquery.NewDocument]: retrieval and parsing, outside the program *)
Variable NewDocument : string -> option goquery.Document * option error.

(** [Fetch] retrieves the page at the specified URL and extracts URLs;
    [target.String()] dereferences the target. *)
Definition Fetch (target : option URL) : go (list URL * list URL * option error) :=
  t ← deref target;
  let '(doc, err) := NewDocument (URLString t) in
  if notNil err then Ret ([], [], err)
  else
    '(urls, err) ← extractLinks doc;
    if notNil err then Ret ([], [], err)
    else
      '(assets, err) ← extractAssets doc;
      if notNil err then Ret ([], [], err)
      else Ret (urls, assets, None).

End Fetcher.
End HttpFetcher.

(** ** The standalone crawler of [main.go] *)

Module Main.
Section Crawler.

Context {lib : NetUrl}.

(** [goquery.NewDocument]: retrieval and parsing, outside the program *)
Variable NewDocument : string -> option goquery.Document * option error.

(** The attribute loop: every [href] overwrites the variable. *)
Fixpoint hrefLoop (attrs : list html.Attribute) (href : string) : string :=
  match attrs with
  | [] => href
  | a :: rest =>
      if negb (html.Key a =s "href") then hrefLoop rest href
      else hrefLoop rest (html.Val a)
  end.

(** The node loop; [n.Type] dereferences the node pointer. *)
Fixpoint nodesLoop (nodes : list (option html.Node)) (urls : list string)
  : go (list string) :=
  match nodes with
  | [] => Ret urls
  | n :: rest =>
      n ← deref n;
      if negb (html.NodeType_eqb (html.Type_ n) html.ElementNode)
         || negb (N.eqb (html.DataAtom n) atom.A)
      then nodesLoop rest urls
      else
        let href := hrefLoop (html.Attr n) EmptyString in
        if href =s "" then nodesLoop rest urls
        else nodesLoop rest (urls ++ [href])
  end.

(** [extractLinks] from a document *)
Definition extractLinks (doc : option goquery.Document)
  : go (list string * option error) :=
  d ← deref doc;
  match goquery.Find d "a" with
  | None => Ret ([], None)
  | Some sel =>
      urls ← nodesLoop (goquery.Nodes sel) [];
      Ret (urls, None)
  end.

(** [fetch] retrieves the page at the specified URL and extracts URLs *)
Definition fetch (url : string) : go (string * list string * option error) :=
  let '(doc, err) := NewDocument url in
  if notNil err then Ret (EmptyString, [], err)
  else
    '(urls, err) ← extractLinks doc;
    if notNil err then Ret (EmptyString, urls, err)
    else Ret (EmptyString, urls, None).

(** [Crawl]: the URLs are only logged *)
Definition Crawl (url : string) : go unit :=
  _ ← fetch url; Ret tt.

End Crawler.
End Main.

(** ** Documents for the examples

  A page given as the list of its element nodes in document order; a tag
  query returns the elements of that tag. *)

Definition elem (tag : string) (a : atom.Atom) (attrs : list (string * string)) : html.Node :=
{| html.Type_ := html.ElementNode; html.DataAtom := a; html.Data := tag;
   html.Attr := map (fun kv => {| html.Namespace := ""; html.Key := kv.1;
                                   html.Val := kv.2 |}) attrs |}.

Definition anchor (attrs : list (string * string)) : html.Node := elem "a" atom.A attrs.

(** The asset passes never read [DataAtom]; these nodes carry atom [0]. *)
Definition img (attrs : list (string * string)) : html.Node := elem "img" 0%N attrs.
Definition script (attrs : list (string * string)) : html.Node := elem "script" 0%N attrs.
Definition link (attrs : list (string * string)) : html.Node := elem "link" 0%N attrs.

Definition page {lib : NetUrl} (nodes : list html.Node) (origin : option URL)
: goquery.Document :=
{| goquery.Find := fun tag =>
     Some {| goquery.Nodes :=
               map Some (filter (fun n => html.Data n = tag) nodes) |};
   goquery.Url := origin |}.

(** ** Reference definitions, in the words of the specification *)

Section Reference.

Context {lib : NetUrl}.

(** Deduplication by canonical string, first occurrence kept: an element
    stays iff its string is not the string of an element before it.
    [before] holds the strings of the elements already passed. *)
Fixpoint firstOccurrences (before : list string) (l : list URL) : list URL :=
  match l with
  | [] => []
  | u :: rest =>
      if bool_decide (URLString u ∈ before)
      then firstOccurrences (before ++ [URLString u]) rest
      else u :: firstOccurrences (before ++ [URLString u]) rest
  end.

(** The raw string cut where [normaliseUrl] cuts it. *)
Definition truncated (raw : string) : string :=
  let i := strings.LastIndex raw "#" in
  if 0 <=? i then strings.slice_to raw i else raw.

(** The raw string cut at its first ['#'], as the specification words it. *)
Definition truncatedAtFirst (raw : string) : string :=
  let i := strings.Index raw "#" in
  if 0 <=? i then strings.slice_to raw i else raw.

(** [normalize(base, raw)]: parse the truncated string and resolve it
    against the base; nothing when it does not parse. *)
Definition normalize (base : URL) (raw : string) : option URL :=
  ResolveReference base <$> Parse (truncated raw).

(** A node is an anchor: kind element, tag identity the anchor atom. *)
Definition isAnchor (n : html.Node) : bool :=
  html.NodeType_eqb (html.Type_ n) html.ElementNode
  && N.eqb (html.DataAtom n) atom.A.

(** The value of the first attribute named [key] whose value is not empty. *)
Definition firstNonEmpty (key : string) (attrs : list html.Attribute) : option string :=
  html.Val <$>
    List.find (fun a => (html.Key a =s key) && negb (html.Val a =s "")) attrs.

(** The value of the last attribute named [key]. *)
Fixpoint lastVal (key : string) (attrs : list html.Attribute) : option string :=
  match attrs with
  | [] => None
  | a :: rest =>
      match lastVal key rest with
      | Some v => Some v
      | None => if html.Key a =s key then Some (html.Val a) else None
      end
  end.

(** Link rule: the candidate of a queried node. *)
Definition anchorCandidate (n : option html.Node) : option string :=
  match n with
  | Some n => if isAnchor n then firstNonEmpty "href" (html.Attr n) else None
  | None => None
  end.

Definition linkOf (base : URL) (n : option html.Node) : option URL :=
  anchorCandidate n ≫= normalize base.

(** Image and script rule as the specification words it: the first
    non-empty [src] value, normalized. *)
Definition srcAssetSpec (base : URL) (n : option html.Node) : option URL :=
  match n with
  | Some n => firstNonEmpty "src" (html.Attr n) ≫= normalize base
  | None => None
  end.

(** Image and script rule as the code has it: the first of the non-empty
    [src] values that normalizes. *)
Definition srcAsset (base : URL) (n : option html.Node) : option URL :=
  match n with
  | Some n =>
      head (omap (fun a => if (html.Key a =s "src") && negb (html.Val a =s "")
                           then normalize base (html.Val a) else None)
                 (html.Attr n))
  | None => None
  end.

(** The [rel] / [type] combinations that make a "link" node an asset. *)
Definition acceptedRel (rel linktype : string) : bool :=
  (rel =s "stylesheet") && (linktype =s "text/css") || (rel =s "shortcut icon").

(** Links-as-resources rule: last [rel], [type] and [href] of the node. *)
Definition linkAsset (base : URL) (n : option html.Node) : option URL :=
  match n with
  | Some n =>
      let rel := default EmptyString (lastVal "rel" (html.Attr n)) in
      let linktype := default EmptyString (lastVal "type" (html.Attr n)) in
      u ← lastVal "href" (html.Attr n) ≫= normalize base;
      if acceptedRel rel linktype then Some u else None
  | None => None
  end.

(** [main.go]: the raw value of the last [href] of an anchor, unless empty. *)
Definition lastHrefCandidate (n : html.Node) : option string :=
  if isAnchor n then
    let href := default EmptyString (lastVal "href" (html.Attr n)) in
    if href =s "" then None else Some href
  else None.

End Reference.

(** The URL that [url.Parse] returns for a string of the examples. *)
Definition parsed (s : string) : url.URL := default url.zero (url.Parse s).

(** The canonical strings of an extraction result. *)
Definition canonical (r : go (list url.URL * option error)) : go (list string) :=
match r with
| Ret (l, _) => Ret (map url.String l)
| Panic => Panic
end.

(** The pages of the examples. *)
Definition exampleOrigin : url.URL := parsed "http://example.com/dir/".

Definition anchorsPage : goquery.Document :=
page [anchor [("href", "/a")]; anchor [("href", "b")]; anchor [("href", "/a#x")]]
     (Some exampleOrigin).

Definition assetsPage : goquery.Document :=
page [img [("src", "/i.png")]; script [("src", "s.js")];
      link [("rel", "stylesheet"); ("type", "text/css"); ("href", "s.css")];
      link [("rel", "alternate"); ("href", "feed.xml")]]
     (Some (parsed "http://x.com/")).

Definition twoSrcImage : html.Node := img [("src", "http://["); ("src", "/ok.png")].


(** * Theorems *)

Section DedupeFacts.

Context {lib : NetUrl}.

Lemma dedupeLoop_firstOccurrences (l : list URL) :
  forall (seen : gmap string bool) (ret : list URL) (before : list string),
    (forall k, is_Some (seen !! k) <-> k ∈ before) ->
    HttpFetcher.dedupeLoop l seen ret = ret ++ firstOccurrences before l.
Proof.
  induction l as [|u rest IH]; intros seen ret before Hinv; simpl.
  - by rewrite app_nil_r.
  - destruct (seen !! URLString u) as [b|] eqn:E.
    + rewrite bool_decide_eq_true_2 by (apply Hinv; eauto).
      apply IH. intros k. rewrite elem_of_app, list_elem_of_singleton.
      split.
      * intros Hk. left. by apply Hinv.
      * intros [Hk| ->]; [by apply Hinv | eauto].
    + rewrite bool_decide_eq_false_2.
      2:{ intros Hin. apply Hinv in Hin. rewrite E in Hin. by destruct Hin. }
      rewrite (IH _ _ (before ++ [URLString u])).
      * by rewrite <- app_assoc.
      * intros k. rewrite elem_of_app, list_elem_of_singleton.
        rewrite lookup_insert. case_decide as Hk.
        -- subst k. split; eauto.
        -- rewrite Hinv. split; [tauto|]. intros [?|?]; [done|congruence].
Qed.

Lemma dedupeUrls_firstOccurrences (l : list URL) :
  HttpFetcher.dedupeUrls l = firstOccurrences [] l.
Proof.
  unfold HttpFetcher.dedupeUrls.
  rewrite (dedupeLoop_firstOccurrences l ∅ [] []); [done|].
  intros k. rewrite lookup_empty. split.
  - by intros [? ?].
  - by intros ?%elem_of_nil.
Qed.

Lemma firstOccurrences_fresh (l : list URL) :
  forall before u, u ∈ firstOccurrences before l -> URLString u ∉ before.
Proof.
  induction l as [|v rest IH]; intros before u; simpl.
  - by intros ?%elem_of_nil.
  - case_bool_decide as Hv.
    + intros Hu%IH. rewrite elem_of_app in Hu. tauto.
    + rewrite elem_of_cons. intros [->|Hu%IH]; [done|].
      rewrite elem_of_app in Hu. tauto.
Qed.

Lemma firstOccurrences_NoDup (l : list URL) :
  forall before, NoDup (URLString <$> firstOccurrences before l).
Proof.
  induction l as [|v rest IH]; intros before; simpl.
  - constructor.
  - case_bool_decide as Hv; [apply IH|].
    rewrite fmap_cons. constructor; [|apply IH].
    rewrite list_elem_of_fmap. intros (w & Hw & Hin).
    apply firstOccurrences_fresh in Hin.
    apply Hin. rewrite elem_of_app, list_elem_of_singleton. by right.
Qed.

Lemma firstOccurrences_sublist (l : list URL) :
  forall before, sublist (firstOccurrences before l) l.
Proof.
  induction l as [|v rest IH]; intros before; simpl; [constructor|].
  case_bool_decide.
  - by apply sublist_cons.
  - by apply sublist_skip.
Qed.

Lemma firstOccurrences_ext (l : list URL) :
  forall before before',
    (forall k, k ∈ before <-> k ∈ before') ->
    firstOccurrences before l = firstOccurrences before' l.
Proof.
  induction l as [|v rest IH]; intros before before' Heq; simpl; [done|].
  assert (firstOccurrences (before ++ [URLString v]) rest
          = firstOccurrences (before' ++ [URLString v]) rest) as ->.
  { apply IH. intros k. rewrite !elem_of_app. by rewrite Heq. }
  by rewrite (bool_decide_ext _ _ (Heq (URLString v))).
Qed.

Lemma firstOccurrences_app (l1 l2 : list URL) :
  forall before,
    firstOccurrences before (l1 ++ l2)
    = firstOccurrences before l1
      ++ firstOccurrences (before ++ (URLString <$> l1)) l2.
Proof.
  induction l1 as [|v rest IH]; intros before; simpl.
  - by rewrite app_nil_r.
  - rewrite IH, <- app_assoc. simpl. by case_bool_decide.
Qed.

Lemma firstOccurrences_complete (l : list URL) :
  forall before u,
    u ∈ l -> URLString u ∉ before ->
    URLString u ∈ URLString <$> firstOccurrences before l.
Proof.
  induction l as [|v rest IH]; intros before u; simpl.
  - by intros ?%elem_of_nil.
  - rewrite elem_of_cons. intros Hu Hfresh.
    destruct (decide (URLString u = URLString v)) as [Heq|Hne].
    + rewrite bool_decide_eq_false_2 by (by rewrite <- Heq).
      rewrite fmap_cons, Heq. by left.
    + destruct Hu as [->|Hu]; [done|].
      assert (URLString u ∈ URLString <$>
                firstOccurrences (before ++ [URLString v]) rest) as Hin.
      { apply IH; [done|]. rewrite elem_of_app, list_elem_of_singleton. tauto. }
      case_bool_decide; [done|]. rewrite fmap_cons. by right.
Qed.

End DedupeFacts.

Section ExtractionFacts.

Context {lib : NetUrl}.

Lemma normaliseUrl_base (b : URL) (raw : string) :
  HttpFetcher.normaliseUrl (Some b) raw = Ret (normalize b raw).
Proof.
  unfold HttpFetcher.normaliseUrl, normalize, truncated.
  by destruct (Parse _).
Qed.

Lemma hrefLoop_firstNonEmpty (attrs : list html.Attribute) :
  HttpFetcher.hrefLoop attrs =
    match firstNonEmpty "href" attrs with
    | Some v => (v, None)
    | None => (EmptyString, Some InvalidNodeAttributeMissing)
    end.
Proof.
  unfold firstNonEmpty.
  induction attrs as [|a rest IH]; simpl; [done|].
  by destruct ((html.Key a =s "href") && negb (html.Val a =s "")).
Qed.

Lemma firstNonEmpty_nonempty key attrs v :
  firstNonEmpty key attrs = Some v -> v <> EmptyString.
Proof.
  unfold firstNonEmpty. intros Hf.
  destruct (List.find _ attrs) as [a|] eqn:E; [|done].
  apply List.find_some in E as [_ E]. simpl in Hf. injection Hf as <-.
  apply andb_true_iff in E as [_ E]. apply negb_true_iff in E.
  by apply String.eqb_neq in E.
Qed.

Lemma extractValidHref_candidate (n : option html.Node) :
  HttpFetcher.extractValidHref n =
    match anchorCandidate n with
    | Some v => (v, None)
    | None =>
        (EmptyString,
         Some (match n with
               | Some m => if isAnchor m then InvalidNodeAttributeMissing
                           else InvalidNode
               | None => InvalidNode
               end))
    end.
Proof.
  destruct n as [n|]; simpl; [|done].
  unfold isAnchor. rewrite <- negb_andb.
  destruct (html.NodeType_eqb _ _ && N.eqb _ _); simpl; [|done].
  apply hrefLoop_firstNonEmpty.
Qed.

Lemma linksLoop_base (b : URL) (nodes : list (option html.Node)) :
  forall urls,
    HttpFetcher.linksLoop (Some b) nodes urls = Ret (urls ++ omap (linkOf b) nodes).
Proof.
  induction nodes as [|n rest IH]; intros urls; simpl.
  - by rewrite app_nil_r.
  - rewrite extractValidHref_candidate. unfold linkOf at 1.
    destruct (anchorCandidate n) as [v|] eqn:E; simpl.
    + pose proof E as Hv. destruct n as [m|]; [|done]. simpl in Hv.
      destruct (isAnchor m); [|done].
      apply firstNonEmpty_nonempty in Hv. apply String.eqb_neq in Hv.
      rewrite Hv, normaliseUrl_base. simpl.
      destruct (normalize b v); simpl; rewrite IH; [|done].
      by rewrite <- app_assoc.
    + apply IH.
Qed.

Lemma srcLoop_base (b : URL) (attrs : list html.Attribute) :
  forall assets,
    HttpFetcher.srcLoop (Some b) attrs assets =
      Ret (assets ++
           option_list
             (head (omap (fun a => if (html.Key a =s "src") && negb (html.Val a =s "")
                                   then normalize b (html.Val a) else None) attrs))).
Proof.
  induction attrs as [|a rest IH]; intros assets; simpl.
  - by rewrite app_nil_r.
  - destruct ((html.Key a =s "src") && negb (html.Val a =s "")); [|apply IH].
    rewrite normaliseUrl_base. simpl.
    destruct (normalize b (html.Val a)); simpl; [done|apply IH].
Qed.

Lemma srcNodes_base (b : URL) (nodes : list (option html.Node)) :
  forall assets,
    HttpFetcher.srcNodes (Some b) nodes assets = Ret (assets ++ omap (srcAsset b) nodes).
Proof.
  induction nodes as [|[n|] rest IH]; intros assets; simpl.
  - by rewrite app_nil_r.
  - rewrite srcLoop_base. simpl. rewrite IH.
    destruct (head _); simpl; [by rewrite <- app_assoc | by rewrite app_nil_r].
  - apply IH.
Qed.

Lemma linkLoop_base (b : URL) (attrs : list html.Attribute) :
  forall rel linktype uri,
    HttpFetcher.linkLoop (Some b) attrs (rel, linktype, uri) =
      Ret (default rel (lastVal "rel" attrs),
           default linktype (lastVal "type" attrs),
           match lastVal "href" attrs with
           | Some h => normalize b h
           | None => uri
           end).
Proof.
  induction attrs as [|a rest IH]; intros rel linktype uri; simpl; [done|].
  destruct (html.Key a =s "rel") eqn:Erel.
  { apply String.eqb_eq in Erel. rewrite Erel. simpl. rewrite IH.
    by destruct (lastVal "rel" rest), (lastVal "type" rest), (lastVal "href" rest). }
  destruct (html.Key a =s "type") eqn:Etype.
  { apply String.eqb_eq in Etype. rewrite Etype. simpl. rewrite IH.
    by destruct (lastVal "rel" rest), (lastVal "type" rest), (lastVal "href" rest). }
  destruct (html.Key a =s "href") eqn:Ehref.
  { rewrite normaliseUrl_base. simpl. rewrite IH.
    by destruct (lastVal "rel" rest), (lastVal "type" rest), (lastVal "href" rest). }
  rewrite IH.
  by destruct (lastVal "rel" rest), (lastVal "type" rest), (lastVal "href" rest).
Qed.

Lemma linkNodes_base (b : URL) (nodes : list (option html.Node)) :
  forall assets,
    HttpFetcher.linkNodes (Some b) nodes assets = Ret (assets ++ omap (linkAsset b) nodes).
Proof.
  induction nodes as [|[n|] rest IH]; intros assets; simpl.
  - by rewrite app_nil_r.
  - rewrite linkLoop_base. simpl. unfold acceptedRel.
    destruct (lastVal "href" (html.Attr n)) as [h|]; simpl; [|apply IH].
    destruct (normalize b h) as [u|]; simpl; [|apply IH].
    destruct (default "" (lastVal "rel" (html.Attr n)) =s "stylesheet"),
             (default "" (lastVal "type" (html.Attr n)) =s "text/css"); simpl;
      try (rewrite IH; by rewrite <- app_assoc);
      destruct (default "" (lastVal "rel" (html.Attr n)) =s "shortcut icon"); simpl;
      rewrite IH; by rewrite <- ?app_assoc.
  - apply IH.
Qed.

Lemma extractLinks_base (d : goquery.Document) (b : URL) (sel : goquery.Selection) :
  goquery.Url d = Some b ->
  goquery.Find d "a" = Some sel ->
  HttpFetcher.extractLinks (Some d)
  = Ret (HttpFetcher.dedupeUrls (omap (linkOf b) (goquery.Nodes sel)), None).
Proof.
  intros Hb Hsel. unfold HttpFetcher.extractLinks. simpl.
  by rewrite Hsel, Hb, linksLoop_base.
Qed.

Lemma extractAssets_base (d : goquery.Document) (b : URL)
      (imgs scripts links : goquery.Selection) :
  goquery.Url d = Some b ->
  goquery.Find d "img" = Some imgs ->
  goquery.Find d "script" = Some scripts ->
  goquery.Find d "link" = Some links ->
  HttpFetcher.extractAssets (Some d)
  = Ret (HttpFetcher.dedupeUrls
           (omap (srcAsset b) (goquery.Nodes imgs)
            ++ omap (srcAsset b) (goquery.Nodes scripts)
            ++ omap (linkAsset b) (goquery.Nodes links)), None).
Proof.
  intros Hb Hi Hs Hl. unfold HttpFetcher.extractAssets. simpl.
  rewrite Hi, Hs, Hl, Hb. simpl.
  rewrite srcNodes_base. simpl. rewrite srcNodes_base. simpl.
  rewrite linkNodes_base. simpl. by rewrite app_assoc.
Qed.

End ExtractionFacts.

(** ** Deduplication *)

Section DedupeClaim.

Context {lib : NetUrl}.

Lemma filter_none (P : URL -> Prop) `{forall x, Decision (P x)} (l : list URL) :
  (forall w, w ∈ l -> ~ P w) -> filter P l = [].
Proof.
  induction l as [|v rest IH]; intros Hall; [done|].
  rewrite filter_cons. case_decide as Hv.
  - exfalso. apply (Hall v); [by left|done].
  - apply IH. intros w Hw. apply Hall. by right.
Qed.

Lemma filter_same_key_once (f : URL -> string) (l : list URL) (k : string) :
  NoDup (f <$> l) -> k ∈ f <$> l ->
  length (filter (fun v => f v = k) l) = 1%nat.
Proof.
  induction l as [|v rest IH].
  - by intros _ ?%elem_of_nil.
  - rewrite fmap_cons, NoDup_cons, elem_of_cons. intros [Hv Hnd] Hk.
    rewrite filter_cons. case_decide as Hfv.
    + subst k. simpl. f_equal.
      apply length_zero_iff_nil, filter_none.
      intros w Hw Heq.
      apply Hv. rewrite <- Heq. by apply list_elem_of_fmap_2.
    + apply IH; [done|]. by destruct Hk as [->|Hk].
Qed.

Lemma extractLinks_is_deduped (doc : option goquery.Document) urls err :
  HttpFetcher.extractLinks doc = Ret (urls, err) ->
  exists l, urls = HttpFetcher.dedupeUrls l.
Proof.
  unfold HttpFetcher.extractLinks. destruct doc as [d|]; simpl; [|done].
  destruct (goquery.Find d "a") as [sel|].
  - destruct (HttpFetcher.linksLoop _ _ _) as [l|]; simpl; [|done].
    intros [= <- _]. by exists l.
  - intros [= <- _]. by exists [].
Qed.

Lemma extractAssets_is_deduped (doc : option goquery.Document) assets err :
  HttpFetcher.extractAssets doc = Ret (assets, err) ->
  exists l, assets = HttpFetcher.dedupeUrls l.
Proof.
  unfold HttpFetcher.extractAssets. destruct doc as [d|]; simpl; [|done].
  destruct (goquery.Find d "img") as [s1|]; simpl; [|done].
  destruct (HttpFetcher.srcNodes _ _ _) as [l1|]; simpl; [|done].
  destruct (goquery.Find d "script") as [s2|]; simpl; [|done].
  destruct (HttpFetcher.srcNodes _ _ _) as [l2|]; simpl; [|done].
  destruct (goquery.Find d "link") as [s3|]; simpl; [|done].
  destruct (HttpFetcher.linkNodes _ _ _) as [l3|]; simpl; [|done].
  intros [= <- _]. by exists l3.
Qed.

(** C6.  [dedupeUrls] keeps, in input order, exactly the elements whose
    canonical string does not occur earlier in the input: the output has
    no canonical string twice, is a subsequence of the input, holds every
    string of the input exactly once, keeps an element at the position of
    its first occurrence and drops a later occurrence.  The links and the
    assets that the extractor returns are outputs of [dedupeUrls], so no
    canonical string appears twice in either sequence. *)
Theorem dedupeUrls_first_seen (l : list URL) :
  HttpFetcher.dedupeUrls l = firstOccurrences [] l
  /\ NoDup (URLString <$> HttpFetcher.dedupeUrls l)
  /\ sublist (HttpFetcher.dedupeUrls l) l
  /\ (forall u, u ∈ l ->
        length (filter (fun v => URLString v = URLString u)
                       (HttpFetcher.dedupeUrls l)) = 1%nat)
  /\ (forall pre u post,
        l = pre ++ u :: post -> URLString u ∉ URLString <$> pre ->
        HttpFetcher.dedupeUrls l
        = HttpFetcher.dedupeUrls pre
          ++ u :: firstOccurrences (URLString <$> (pre ++ [u])) post)
  /\ (forall pre u post,
        l = pre ++ u :: post -> URLString u ∈ URLString <$> pre ->
        HttpFetcher.dedupeUrls l = HttpFetcher.dedupeUrls (pre ++ post))
  /\ (forall doc urls err,
        HttpFetcher.extractLinks doc = Ret (urls, err) ->
        NoDup (URLString <$> urls))
  /\ (forall doc assets err,
        HttpFetcher.extractAssets doc = Ret (assets, err) ->
        NoDup (URLString <$> assets)).
Proof.
  split; [apply dedupeUrls_firstOccurrences|].
  split; [rewrite dedupeUrls_firstOccurrences; apply firstOccurrences_NoDup|].
  split; [rewrite dedupeUrls_firstOccurrences; apply firstOccurrences_sublist|].
  split.
  { intros u Hu. apply filter_same_key_once.
    - rewrite dedupeUrls_firstOccurrences. apply firstOccurrences_NoDup.
    - rewrite dedupeUrls_firstOccurrences.
      apply firstOccurrences_complete; [done|]. by intros ?%elem_of_nil. }
  split.
  { intros pre u post -> Hfresh.
    rewrite !dedupeUrls_firstOccurrences, firstOccurrences_app. simpl.
    rewrite bool_decide_eq_false_2 by done.
    by rewrite fmap_app. }
  split.
  { intros pre u post -> Hin.
    rewrite !dedupeUrls_firstOccurrences, !firstOccurrences_app. simpl.
    rewrite bool_decide_eq_true_2 by done. f_equal.
    apply firstOccurrences_ext. intros k.
    rewrite elem_of_app, list_elem_of_singleton. split; [|tauto].
    intros [?| ->]; done. }
  split.
  - intros doc urls err (l' & ->)%extractLinks_is_deduped.
    rewrite dedupeUrls_firstOccurrences. apply firstOccurrences_NoDup.
  - intros doc assets err (l' & ->)%extractAssets_is_deduped.
    rewrite dedupeUrls_firstOccurrences. apply firstOccurrences_NoDup.
Qed.

End DedupeClaim.

(** ** Lists: the first element that passes a test *)

Section FirstFacts.

Context {A B : Type}.

Lemma find_first (f : A -> bool) (l : list A) (a : A) :
  List.find f l = Some a <->
  exists pre post, l = pre ++ a :: post /\ f a = true
                   /\ forall x, x ∈ pre -> f x = false.
Proof.
  split.
  - induction l as [|x rest IH]; simpl; [done|].
    destruct (f x) eqn:Ex.
    + intros [= ->]. exists [], rest. split; [done|]. split; [done|].
      by intros ? ?%elem_of_nil.
    + intros (pre & post & -> & Ha & Hpre)%IH.
      exists (x :: pre), post. split; [done|]. split; [done|].
      intros y [->|Hy]%elem_of_cons; auto.
  - intros (pre & post & -> & Ha & Hpre).
    induction pre as [|x pre IH]; simpl.
    + by rewrite Ha.
    + rewrite (Hpre x) by by left. apply IH. intros y Hy. apply Hpre. by right.
Qed.

Lemma head_omap_Some (g : A -> option B) (l : list A) (u : B) :
  head (omap g l) = Some u <->
  exists pre a post, l = pre ++ a :: post /\ g a = Some u
                     /\ forall x, x ∈ pre -> g x = None.
Proof.
  split.
  - induction l as [|x rest IH]; simpl; [done|].
    destruct (g x) as [v|] eqn:Ex; simpl.
    + intros [= ->]. exists [], x, rest. split; [done|]. split; [done|].
      by intros ? ?%elem_of_nil.
    + intros (pre & a & post & -> & Ha & Hpre)%IH.
      exists (x :: pre), a, post. split; [done|]. split; [done|].
      intros y [->|Hy]%elem_of_cons; auto.
  - intros (pre & a & post & -> & Ha & Hpre).
    induction pre as [|x pre IH]; simpl.
    + by rewrite Ha.
    + rewrite (Hpre x) by by left. apply IH. intros y Hy. apply Hpre. by right.
Qed.

Lemma head_omap_None (g : A -> option B) (l : list A) :
  head (omap g l) = None <-> forall x, x ∈ l -> g x = None.
Proof.
  induction l as [|x rest IH]; simpl.
  - split; [by intros _ ? ?%elem_of_nil|done].
  - destruct (g x) as [v|] eqn:Ex; simpl.
    + split; [done|]. intros Hall. specialize (Hall x). rewrite Ex in Hall.
      apply Hall. by left.
    + rewrite IH. split.
      * intros Hall y [->|Hy]%elem_of_cons; auto.
      * intros Hall y Hy. apply Hall. by right.
Qed.

End FirstFacts.

(** ** Link extraction *)

Section LinkClaim.

Context {lib : NetUrl}.

Lemma isAnchor_spec (m : html.Node) :
  isAnchor m = true <->
  html.Type_ m = html.ElementNode /\ html.DataAtom m = atom.A.
Proof.
  unfold isAnchor. rewrite andb_true_iff, N.eqb_eq.
  destruct (html.Type_ m); simpl; split; intros [? ?]; done.
Qed.

Lemma href_test_spec (key : string) (a : html.Attribute) :
  (html.Key a =s key) && negb (html.Val a =s "") = true <->
  html.Key a = key /\ html.Val a <> EmptyString.
Proof.
  rewrite andb_true_iff, negb_true_iff, String.eqb_eq, String.eqb_neq. done.
Qed.

Lemma href_test_false (key : string) (a : html.Attribute) :
  (html.Key a =s key) && negb (html.Val a =s "") = false <->
  (html.Key a = key -> html.Val a = EmptyString).
Proof.
  rewrite andb_false_iff, negb_false_iff, String.eqb_eq, String.eqb_neq.
  split; [intros [?|?]; [done|auto]|].
  intros Himp. destruct (decide (html.Key a = key)); auto.
Qed.

Lemma firstNonEmpty_spec (key : string) (attrs : list html.Attribute) (v : string) :
  firstNonEmpty key attrs = Some v <->
  exists pre a post,
    attrs = pre ++ a :: post /\ html.Key a = key /\ html.Val a = v
    /\ v <> EmptyString
    /\ forall a', a' ∈ pre -> html.Key a' = key -> html.Val a' = EmptyString.
Proof.
  unfold firstNonEmpty. split.
  - destruct (List.find _ attrs) as [a|] eqn:E; simpl; [|done].
    intros [= <-]. apply find_first in E as (pre & post & -> & Ha & Hpre).
    apply href_test_spec in Ha as [Hk Hv].
    exists pre, a, post. repeat split; try done.
    intros a' Ha'. by apply href_test_false, Hpre.
  - intros (pre & a & post & -> & Hk & <- & Hv & Hpre).
    assert (List.find (fun a0 => (html.Key a0 =s key) && negb (html.Val a0 =s ""))
                      (pre ++ a :: post) = Some a) as ->; [|done].
    apply find_first. exists pre, post. split; [done|]. split.
    + by apply href_test_spec.
    + intros a' Ha'. by apply href_test_false, Hpre.
Qed.

(** C4.  In link extraction a queried node gives a candidate exactly when
    it is a (non-nil) element node whose tag is the anchor atom and which
    has an [href] attribute with a non-empty value; the candidate is the
    value of the first such attribute.  Every other node is skipped: the
    links before deduplication are the normalized candidates of the
    queried nodes, node by node and in order, so a skipped node does not
    affect what the other nodes contribute. *)
Theorem extractLinks_anchor_rule (b : URL) :
  (forall n v, HttpFetcher.extractValidHref n = (v, None) <-> anchorCandidate n = Some v)
  /\ (forall n v,
        anchorCandidate n = Some v <->
        exists m pre a post,
          n = Some m /\ html.Type_ m = html.ElementNode /\ html.DataAtom m = atom.A
          /\ html.Attr m = pre ++ a :: post /\ html.Key a = "href"
          /\ html.Val a = v /\ v <> EmptyString
          /\ forall a', a' ∈ pre -> html.Key a' = "href" -> html.Val a' = EmptyString)
  /\ (forall n, anchorCandidate n = None ->
        exists err, HttpFetcher.extractValidHref n = (EmptyString, Some err))
  /\ (forall nodes urls,
        HttpFetcher.linksLoop (Some b) nodes urls = Ret (urls ++ omap (linkOf b) nodes))
  /\ (forall pre n post urls,
        anchorCandidate n = None ->
        HttpFetcher.linksLoop (Some b) (pre ++ n :: post) urls
        = HttpFetcher.linksLoop (Some b) (pre ++ post) urls)
  /\ (forall d sel,
        goquery.Url d = Some b -> goquery.Find d "a" = Some sel ->
        HttpFetcher.extractLinks (Some d)
        = Ret (HttpFetcher.dedupeUrls (omap (linkOf b) (goquery.Nodes sel)), None)).
Proof.
  split.
  { intros n v. rewrite extractValidHref_candidate.
    destruct (anchorCandidate n); split; congruence. }
  split.
  { intros n v. split.
    - destruct n as [m|]; simpl; [|done].
      destruct (isAnchor m) eqn:Em; [|done].
      apply isAnchor_spec in Em as [Ht Ha].
      intros (pre & a & post & ? & ? & ? & ? & ?)%firstNonEmpty_spec.
      exists m, pre, a, post. repeat split; done.
    - intros (m & pre & a & post & -> & Ht & Ha & Hattr & Hk & Hv & Hne & Hpre).
      simpl. rewrite (proj2 (isAnchor_spec m)) by done.
      apply firstNonEmpty_spec. exists pre, a, post. repeat split; done. }
  split.
  { intros n Hn. rewrite extractValidHref_candidate, Hn. eauto. }
  split; [apply linksLoop_base|].
  split.
  { intros pre n post urls Hn. rewrite !linksLoop_base, !omap_app. simpl.
    unfold linkOf at 2. by rewrite Hn. }
  intros d sel. apply extractLinks_base.
Qed.

End LinkClaim.

(** ** Asset extraction: the "link" pass *)

Section LinkAssetClaim.

Context {lib : NetUrl}.

Lemma lastVal_none (key : string) (attrs : list html.Attribute) :
  lastVal key attrs = None <-> forall a, a ∈ attrs -> html.Key a <> key.
Proof.
  induction attrs as [|a rest IH]; simpl.
  - split; [by intros _ ? ?%elem_of_nil|done].
  - destruct (lastVal key rest) as [v|] eqn:E.
    + split; [done|]. intros Hall.
      assert (Some v = None) as Hv; [|done].
      apply IH. intros a' Ha'. apply Hall. by right.
    + destruct (html.Key a =s key) eqn:Ek.
      * split; [done|]. intros Hall. apply String.eqb_eq in Ek.
        exfalso. apply (Hall a); [by left|done].
      * apply String.eqb_neq in Ek. split; [|done].
        intros _ a' [->|Ha']%elem_of_cons; [done|]. by apply (proj1 IH).
Qed.

Lemma lastVal_app (key : string) (l1 l2 : list html.Attribute) :
  lastVal key (l1 ++ l2) =
    match lastVal key l2 with
    | Some v => Some v
    | None => lastVal key l1
    end.
Proof.
  induction l1 as [|a rest IH]; simpl.
  - by destruct (lastVal key l2).
  - rewrite IH. by destruct (lastVal key l2).
Qed.

Lemma lastVal_last (key : string) (pre post : list html.Attribute) (a : html.Attribute) :
  html.Key a = key ->
  (forall a', a' ∈ post -> html.Key a' <> key) ->
  lastVal key (pre ++ a :: post) = Some (html.Val a).
Proof.
  intros Hk Hpost. rewrite lastVal_app. simpl.
  rewrite (proj2 (lastVal_none key post)) by done.
  by rewrite (proj2 (String.eqb_eq _ _) Hk).
Qed.

Lemma acceptedRel_spec (r t : option string) :
  acceptedRel (default EmptyString r) (default EmptyString t) = true <->
  (r = Some "stylesheet"%string /\ t = Some "text/css"%string)
  \/ r = Some "shortcut icon"%string.
Proof.
  unfold acceptedRel.
  rewrite orb_true_iff, andb_true_iff, !String.eqb_eq.
  destruct r as [r|], t as [t|]; simpl; split;
    intros [[? ?]|?]; subst; try done; auto; try (left; split; congruence);
    try (right; congruence).
Qed.

(** C5.  For a node of the "link" query the loop keeps the value of the
    last [rel], the last [type] and the last [href] attribute (a repeated
    key overwrites).  The node yields an asset exactly when it has an
    [href] (whose last value normalizes) and either the last [rel] is
    "stylesheet" with the last [type] "text/css", or the last [rel] is
    "shortcut icon"; any other [rel] yields nothing. *)
Theorem extractAssets_link_rule (b : URL) :
  (forall attrs rel linktype uri,
     HttpFetcher.linkLoop (Some b) attrs (rel, linktype, uri) =
       Ret (default rel (lastVal "rel" attrs),
            default linktype (lastVal "type" attrs),
            match lastVal "href" attrs with
            | Some h => normalize b h
            | None => uri
            end))
  /\ (forall key pre a post,
        html.Key a = key ->
        (forall a', a' ∈ post -> html.Key a' <> key) ->
        lastVal key (pre ++ a :: post) = Some (html.Val a))
  /\ (forall key attrs,
        lastVal key attrs = None <-> forall a, a ∈ attrs -> html.Key a <> key)
  /\ (forall nodes assets,
        HttpFetcher.linkNodes (Some b) nodes assets
        = Ret (assets ++ omap (linkAsset b) nodes))
  /\ (forall n u,
        linkAsset b (Some n) = Some u <->
        exists h,
          lastVal "href" (html.Attr n) = Some h /\ normalize b h = Some u
          /\ ((lastVal "rel" (html.Attr n) = Some "stylesheet"%string
               /\ lastVal "type" (html.Attr n) = Some "text/css"%string)
              \/ lastVal "rel" (html.Attr n) = Some "shortcut icon"%string)).
Proof.
  split; [apply linkLoop_base|].
  split; [intros; by apply lastVal_last|].
  split; [apply lastVal_none|].
  split; [apply linkNodes_base|].
  intros n u. simpl.
  destruct (lastVal "href" (html.Attr n)) as [h|] eqn:Eh; simpl.
  - destruct (normalize b h) as [u'|] eqn:En; simpl.
    + destruct (acceptedRel _ _) eqn:Eacc.
      * apply acceptedRel_spec in Eacc. split.
        -- intros [= <-]. by exists h.
        -- intros (h' & [= <-] & Hn & _). congruence.
      * split; [done|]. intros (h' & _ & _ & Hacc).
        apply acceptedRel_spec in Hacc. congruence.
    + split; [done|]. intros (h' & [= <-] & Hn & _). congruence.
  - split; [done|]. by intros (h' & ? & _).
Qed.

End LinkAssetClaim.

(** ** Asset extraction: the image and script passes *)

Section SrcAssetClaim.

Context {lib : NetUrl}.

Lemma src_test_Some (b : URL) (a : html.Attribute) (u : URL) :
  (if (html.Key a =s "src") && negb (html.Val a =s "")
   then normalize b (html.Val a) else None) = Some u <->
  html.Key a = "src"%string /\ html.Val a <> EmptyString
  /\ normalize b (html.Val a) = Some u.
Proof.
  destruct ((html.Key a =s "src") && negb (html.Val a =s "")) eqn:E.
  - apply href_test_spec in E. tauto.
  - split; [done|]. intros (Hk & Hv & _).
    assert (html.Val a = EmptyString); [|done].
    by apply (proj1 (href_test_false "src" a)).
Qed.

Lemma src_test_None (b : URL) (a : html.Attribute) :
  (if (html.Key a =s "src") && negb (html.Val a =s "")
   then normalize b (html.Val a) else None) = None <->
  (html.Key a = "src"%string -> html.Val a <> EmptyString ->
   normalize b (html.Val a) = None).
Proof.
  destruct ((html.Key a =s "src") && negb (html.Val a =s "")) eqn:E.
  - apply href_test_spec in E. tauto.
  - split; [|done]. intros _ Hk Hv.
    exfalso. apply Hv. by apply (proj1 (href_test_false "src" a)).
Qed.

(** C3 (as amended).  An "img" or "script" node contributes at most one
    asset: the normalization of the first [src] attribute whose value is
    non-empty and normalizes.  A non-empty [src] value that fails to
    normalize is passed over and the scan goes on to the later attributes;
    the node contributes nothing exactly when none of its non-empty [src]
    values normalizes.  When the first non-empty [src] value normalizes,
    this is the asset the specification's rule names. *)
Theorem extractAssets_src_rule (b : URL) :
  (forall nodes assets,
     HttpFetcher.srcNodes (Some b) nodes assets
     = Ret (assets ++ omap (srcAsset b) nodes))
  /\ (forall n u,
        srcAsset b (Some n) = Some u <->
        exists pre a post,
          html.Attr n = pre ++ a :: post
          /\ html.Key a = "src"%string /\ html.Val a <> EmptyString
          /\ normalize b (html.Val a) = Some u
          /\ forall a', a' ∈ pre -> html.Key a' = "src"%string ->
                        html.Val a' <> EmptyString ->
                        normalize b (html.Val a') = None)
  /\ (forall n,
        srcAsset b (Some n) = None <->
        forall a, a ∈ html.Attr n -> html.Key a = "src"%string ->
                  html.Val a <> EmptyString -> normalize b (html.Val a) = None)
  /\ (forall n u, srcAssetSpec b n = Some u -> srcAsset b n = Some u)
  /\ srcAsset b None = None.
Proof.
  split; [apply srcNodes_base|].
  split.
  { intros n u. simpl. rewrite head_omap_Some. split.
    - intros (pre & a & post & Hattr & Ha & Hpre).
      apply src_test_Some in Ha as (Hk & Hv & Hn).
      exists pre, a, post. repeat split; try done.
      intros a' Ha'. by apply src_test_None, Hpre.
    - intros (pre & a & post & Hattr & Hk & Hv & Hn & Hpre).
      exists pre, a, post. split; [done|]. split.
      + by apply src_test_Some.
      + intros a' Ha'. apply src_test_None. by apply Hpre. }
  split.
  { intros n. simpl. rewrite head_omap_None. split.
    - intros Hall a Ha. by apply src_test_None, Hall.
    - intros Hall a Ha. apply src_test_None. by apply Hall. }
  split; [|done].
  intros [n|] u; simpl; [|done].
  destruct (firstNonEmpty "src" (html.Attr n)) as [v|] eqn:Ev; simpl; [|done].
  intros Hn.
  apply firstNonEmpty_spec in Ev as (pre & a & post & Hattr & Hk & <- & Hv & Hpre).
  apply head_omap_Some. exists pre, a, post. split; [done|]. split.
  - by apply src_test_Some.
  - intros a' Ha'. apply src_test_None. intros Hk' Hv'.
    exfalso. apply Hv'. by apply Hpre.
Qed.

End SrcAssetClaim.

(** ** The standalone [extractLinks] of [main.go] *)

Section MainClaim.

Context {lib : NetUrl}.

Lemma main_hrefLoop_lastVal (attrs : list html.Attribute) :
  forall href, Main.hrefLoop attrs href = default href (lastVal "href" attrs).
Proof.
  induction attrs as [|a rest IH]; intros href; simpl; [done|].
  rewrite !IH.
  destruct (html.Key a =s "href"); simpl; by destruct (lastVal "href" rest).
Qed.

Lemma lastVal_origin (key : string) (attrs : list html.Attribute) (v : string) :
  lastVal key attrs = Some v ->
  exists a, a ∈ attrs /\ html.Key a = key /\ html.Val a = v.
Proof.
  induction attrs as [|a rest IH]; simpl; [done|].
  destruct (lastVal key rest) as [w|].
  - intros [= <-]. destruct (IH eq_refl) as (a' & Ha' & ?).
    exists a'. split; [by right|done].
  - destruct (html.Key a =s key) eqn:Ek; [|done].
    intros [= <-]. apply String.eqb_eq in Ek. exists a. split; [by left|done].
Qed.

Lemma main_nodesLoop_candidates (ns : list html.Node) :
  forall urls,
    Main.nodesLoop (Some <$> ns) urls = Ret (urls ++ omap lastHrefCandidate ns).
Proof.
  induction ns as [|n rest IH]; intros urls; simpl.
  - by rewrite app_nil_r.
  - unfold lastHrefCandidate at 1, isAnchor. rewrite <- negb_andb.
    destruct (html.NodeType_eqb _ _ && N.eqb _ _); simpl; [|apply IH].
    rewrite main_hrefLoop_lastVal.
    destruct (default "" (lastVal "href" (html.Attr n)) =s ""); simpl; rewrite IH;
      [done|by rewrite <- app_assoc].
Qed.

Lemma main_extractLinks_no_error (doc : option goquery.Document) urls err :
  Main.extractLinks doc = Ret (urls, err) -> err = None.
Proof.
  unfold Main.extractLinks. destruct doc as [d|]; simpl; [|done].
  destruct (goquery.Find d "a") as [sel|]; [|by intros [= _ <-]].
  destruct (Main.nodesLoop _ _); simpl; [by intros [= _ <-]|done].
Qed.

(** C10.  The [extractLinks] of [main.go] takes, for each anchor element,
    the value of its last [href] attribute (every [href] overwrites the
    variable, an empty one too, and a node whose last [href] is empty is
    skipped) and returns these raw attribute values, one per remaining
    node and in order: they are not resolved against the document's URL
    and repeated values stay.  [fetch] returns exactly this list. *)
Theorem main_extractLinks_last_href_raw :
  (forall attrs href,
     Main.hrefLoop attrs href = default href (lastVal "href" attrs))
  /\ (forall pre a post,
        html.Key a = "href"%string ->
        (forall a', a' ∈ post -> html.Key a' <> "href"%string) ->
        Main.hrefLoop (pre ++ a :: post) EmptyString = html.Val a)
  /\ (forall n pre a post,
        html.Attr n = pre ++ a :: post ->
        html.Key a = "href"%string -> html.Val a = EmptyString ->
        (forall a', a' ∈ post -> html.Key a' <> "href"%string) ->
        lastHrefCandidate n = None)
  /\ (forall n h,
        lastHrefCandidate n = Some h ->
        exists a, a ∈ html.Attr n /\ html.Key a = "href"%string /\ html.Val a = h)
  /\ (forall (d : goquery.Document) sel ns,
        goquery.Find d "a" = Some sel ->
        goquery.Nodes sel = Some <$> ns ->
        Main.extractLinks (Some d) = Ret (omap lastHrefCandidate ns, None))
  /\ (forall (d : goquery.Document) sel n h,
        goquery.Find d "a" = Some sel ->
        goquery.Nodes sel = [Some n; Some n] ->
        lastHrefCandidate n = Some h ->
        Main.extractLinks (Some d) = Ret ([h; h], None))
  /\ (forall NewDocument url (d : goquery.Document),
        NewDocument url = (Some d, None) ->
        Main.fetch NewDocument url
        = (r ← Main.extractLinks (Some d); Ret (EmptyString, r.1, None))).
Proof.
  split; [apply main_hrefLoop_lastVal|].
  split.
  { intros pre a post Hk Hpost.
    by rewrite main_hrefLoop_lastVal, (lastVal_last "href" pre post a). }
  split.
  { intros n pre a post Hattr Hk Hv Hpost. unfold lastHrefCandidate.
    rewrite Hattr, (lastVal_last "href" pre post a), Hv by done. simpl.
    by destruct (isAnchor n). }
  split.
  { intros n h. unfold lastHrefCandidate.
    destruct (isAnchor n); [|done].
    destruct (lastVal "href" (html.Attr n)) as [v|] eqn:Ev; simpl; [|done].
    destruct (v =s ""); [done|]. intros [= <-]. by apply lastVal_origin. }
  split.
  { intros d sel ns Hsel Hns. unfold Main.extractLinks. simpl.
    by rewrite Hsel, Hns, main_nodesLoop_candidates. }
  split.
  { intros d sel n h Hsel Hns Hh. unfold Main.extractLinks. simpl.
    rewrite Hsel, Hns.
    change [Some n; Some n] with (Some <$> [n; n]).
    rewrite main_nodesLoop_candidates. simpl. by rewrite Hh. }
  intros NewDocument url d Hdoc. unfold Main.fetch. rewrite Hdoc. simpl.
  destruct (Main.extractLinks (Some d)) as [[urls err]|] eqn:E; simpl; [|done].
  by rewrite (main_extractLinks_no_error _ _ _ E).
Qed.

End MainClaim.

(** ** Totality of the extraction *)

Section TotalClaim.

Context {lib : NetUrl}.

Lemma dedupeUrls_nil : HttpFetcher.dedupeUrls [] = [].
Proof. reflexivity. Qed.

(** C2 (as amended).  On a non-nil document whose origin URL is set, link
    extraction never raises and reports no error, whatever nodes (nil
    ones included) the anchor query returns; it returns the empty
    sequence when the query returns a nil selection or no node.  Asset
    extraction never raises and reports no error when its three queries
    return selections, and returns the empty sequence when the three
    hold no node. *)
Theorem extract_total_on_documents (d : goquery.Document) (b : URL) :
  goquery.Url d = Some b ->
  (exists urls, HttpFetcher.extractLinks (Some d) = Ret (urls, None))
  /\ (match goquery.Find d "a" with
      | None => True
      | Some sel => goquery.Nodes sel = []
      end ->
      HttpFetcher.extractLinks (Some d) = Ret ([], None))
  /\ (forall imgs scripts links,
        goquery.Find d "img" = Some imgs ->
        goquery.Find d "script" = Some scripts ->
        goquery.Find d "link" = Some links ->
        (exists assets, HttpFetcher.extractAssets (Some d) = Ret (assets, None))
        /\ (goquery.Nodes imgs = [] -> goquery.Nodes scripts = [] ->
            goquery.Nodes links = [] ->
            HttpFetcher.extractAssets (Some d) = Ret ([], None))).
Proof.
  intros Hb. split.
  { destruct (goquery.Find d "a") as [sel|] eqn:Esel.
    - rewrite (extractLinks_base d b sel) by done. eauto.
    - unfold HttpFetcher.extractLinks. simpl. rewrite Esel. eauto. }
  split.
  { destruct (goquery.Find d "a") as [sel|] eqn:Esel.
    - intros Hnil. rewrite (extractLinks_base d b sel) by done. by rewrite Hnil.
    - intros _. unfold HttpFetcher.extractLinks. simpl. by rewrite Esel. }
  intros imgs scripts links Hi Hs Hl.
  rewrite (extractAssets_base d b imgs scripts links) by done.
  split; [eauto|]. by intros -> -> ->.
Qed.

(** C7.  When the truncated string does not parse, [normaliseUrl] returns
    nil without raising, whatever the parent (a nil parent included), and
    this is the only case in which it returns nil for a non-nil parent.
    The string "http://[" is such a string for [net/url]. *)
Theorem normaliseUrl_unparseable :
  (forall parent raw,
     Parse (truncated raw) = None ->
     HttpFetcher.normaliseUrl parent raw = Ret None)
  /\ (forall b raw,
        HttpFetcher.normaliseUrl (Some b) raw = Ret None ->
        Parse (truncated raw) = None).
Proof.
  split.
  - intros parent raw Hp. unfold HttpFetcher.normaliseUrl.
    fold (truncated raw). by rewrite Hp.
  - intros b raw. rewrite normaliseUrl_base. unfold normalize.
    by destruct (Parse (truncated raw)).
Qed.

End TotalClaim.

(** ** Fragment stripping *)

Lemma CountByte_nonneg (s : string) (c : ascii) : 0 <= strings.CountByte s c.
Proof.
  induction s as [|c' s IH]; simpl; [lia|]. destruct (Ascii.eqb c' c); lia.
Qed.

Lemma CountByte_cons_zero (c' : ascii) (s : string) (c : ascii) :
  strings.CountByte (String c' s) c = 0 ->
  c' <> c /\ strings.CountByte s c = 0.
Proof.
  simpl. pose proof (CountByte_nonneg s c).
  destruct (Ascii.eqb c' c) eqn:E; [lia|].
  apply Ascii.eqb_neq in E. split; [done|lia].
Qed.

Lemma prefix_hash (c : ascii) (s : string) :
  String.prefix "#" (String c s) = Ascii.eqb c "#".
Proof.
  cbn [String.prefix]. destruct (ascii_dec "#" c) as [<-|Hne].
  - by destruct s.
  - symmetry. apply Ascii.eqb_neq. congruence.
Qed.

Lemma lastIndex_hash_free (s : string) :
  strings.CountByte s "#" = 0 -> strings.lastIndex_nat s "#" = None.
Proof.
  induction s as [|c s IH]; [done|].
  intros [Hc Hs]%CountByte_cons_zero.
  cbn [strings.lastIndex_nat]. rewrite IH by done.
  by rewrite prefix_hash, (proj2 (Ascii.eqb_neq _ _) Hc).
Qed.

Lemma append_empty (t : string) : (EmptyString ++ t)%string = t.
Proof. reflexivity. Qed.

Lemma append_cons (c : ascii) (s t : string) :
  (String c s ++ t)%string = String c (s ++ t).
Proof. reflexivity. Qed.

Lemma lastIndex_hash_append (s f : string) :
  strings.CountByte f "#" = 0 ->
  strings.lastIndex_nat (s ++ String "#" f) "#" = Some (String.length s).
Proof.
  intros Hf. induction s as [|c s IH].
  - rewrite append_empty. cbn [strings.lastIndex_nat].
    rewrite (lastIndex_hash_free f Hf). by rewrite prefix_hash.
  - rewrite append_cons. cbn [strings.lastIndex_nat String.length]. by rewrite IH.
Qed.

Lemma substring_prefix (s t : string) :
  String.substring 0 (String.length s) (s ++ t) = s.
Proof.
  induction s as [|c s IH].
  - rewrite append_empty. by destruct t.
  - rewrite append_cons. cbn [String.length String.substring]. by rewrite IH.
Qed.

Lemma truncated_hash_free (s : string) :
  strings.CountByte s "#" = 0 -> truncated s = s.
Proof.
  intros Hs. unfold truncated, strings.LastIndex.
  by rewrite (lastIndex_hash_free s Hs).
Qed.

Lemma truncated_append_fragment (s f : string) :
  strings.CountByte f "#" = 0 -> truncated (s ++ String "#" f) = s.
Proof.
  intros Hf. unfold truncated, strings.LastIndex, strings.slice_to.
  rewrite (lastIndex_hash_append s f Hf).
  rewrite (proj2 (Z.leb_le _ _)) by lia.
  rewrite Nat2Z.id. apply substring_prefix.
Qed.

(** Where the string has no ['#'] of its own, appending a fragment has no
    effect on the result. *)
Lemma normaliseUrl_fragment_free `{lib : NetUrl} (parent : option URL) (s f : string) :
  strings.CountByte s "#" = 0 -> strings.CountByte f "#" = 0 ->
  HttpFetcher.normaliseUrl parent (s ++ String "#" f)
  = HttpFetcher.normaliseUrl parent s.
Proof.
  intros Hs Hf. unfold HttpFetcher.normaliseUrl.
  fold (truncated (s ++ String "#" f)). fold (truncated s).
  by rewrite truncated_append_fragment, truncated_hash_free.
Qed.

(** C1.  [normaliseUrl] cuts the string at its LAST ['#'], not at its
    first.  For the absolute URL string [s = "http://example.com/a#x"],
    [s ++ "#frag"] is cut to [s] itself, whose fragment [x] the parser
    keeps, whereas [s] is cut to "http://example.com/a": the two results
    differ, and the first one still carries a fragment. *)
Theorem normaliseUrl_cuts_at_last_hash :
  let base := parsed "http://example.com/dir/" in
  let s := "http://example.com/a#x"%string in
  truncated (s ++ "#frag") = s
  /\ truncatedAtFirst (s ++ "#frag") = "http://example.com/a"%string
  /\ HttpFetcher.normaliseUrl (Some base) (s ++ "#frag")
     = Ret (Some (parsed "http://example.com/a#x"))
  /\ HttpFetcher.normaliseUrl (Some base) s
     = Ret (Some (parsed "http://example.com/a"))
  /\ url.Fragment (parsed "http://example.com/a#x") = "x"%string
  /\ url.String (parsed "http://example.com/a#x") = "http://example.com/a#x"%string
  /\ url.String (parsed "http://example.com/a") = "http://example.com/a"%string
  /\ HttpFetcher.normaliseUrl (Some base) (s ++ "#frag")
     <> HttpFetcher.normaliseUrl (Some base) s.
Proof.
  cbv zeta. repeat split; try (vm_compute; reflexivity).
  vm_compute. discriminate.
Qed.


(** ** Facts about the [net/url] model *)

Lemma setPath_fields u p u' :
  url.setPath u p = Some u' ->
  url.Scheme u' = url.Scheme u /\ url.Opaque u' = url.Opaque u
  /\ url.Host u' = url.Host u /\ url.User u' = url.User u.
Proof.
  unfold url.setPath. destruct (url.unescape p url.encodePath); simpl; [|done].
  intros [= <-]. done.
Qed.

Lemma parse_opaque s u :
  url.parse s false = Some u ->
  url.Opaque u = EmptyString
  \/ (url.Scheme u <> EmptyString /\ url.Host u = EmptyString /\ url.User u = None).
Proof.
  unfold url.parse.
  destruct (url.stringContainsCTLByte s); [done|].
  rewrite andb_false_r.
  destruct (s =s "*"). { intros [= <-]. by left. }
  destruct (url.getScheme s) as [[scheme rest]|]; simpl; [|done].
  destruct (if strings.HasSuffix rest "?" && (strings.CountByte rest "?" =? 1)
            then _ else _) as [[rest0 fq] rq].
  destruct (negb (strings.HasPrefix rest0 "/") && negb (strings.ToLower scheme =s ""))
    eqn:Eop.
  { intros [= <-]. right. simpl.
    apply andb_true_iff in Eop as [_ Es]. apply negb_true_iff, String.eqb_neq in Es.
    done. }
  rewrite andb_false_r.
  destruct (negb (strings.HasPrefix rest0 "/") && strings.Contains _ _); [done|].
  destruct ((_ || _) && strings.HasPrefix rest0 "//").
  { destruct (if 0 <=? _ then _ else _) as [authority rest1].
    destruct (url.parseAuthority authority) as [[usr host]|]; simpl; [|done].
    intros (_ & Ho & _)%setPath_fields. left. by rewrite Ho. }
  destruct (negb (strings.ToLower scheme =s "") && strings.HasPrefix rest0 "/").
  - intros (_ & Ho & _)%setPath_fields. left. by rewrite Ho.
  - intros (_ & Ho & _)%setPath_fields. left. by rewrite Ho.
Qed.

Lemma Parse_opaque s u :
  url.Parse s = Some u ->
  url.Opaque u = EmptyString
  \/ (url.Scheme u <> EmptyString /\ url.Host u = EmptyString /\ url.User u = None).
Proof.
  unfold url.Parse. destruct (strings.Cut s "#") as [[u0 frag] found].
  destruct (url.parse u0 false) as [v|] eqn:Ev; simpl; [|done].
  apply parse_opaque in Ev.
  destruct (frag =s ""); [by intros [= <-]|].
  unfold url.setFragment. destruct (url.unescape frag url.encodeFragment); simpl; [|done].
  by intros [= <-].
Qed.

Lemma setPath_ignoring_error_fields u p :
  let u' := url.setPath_ignoring_error u p in
  url.Scheme u' = url.Scheme u /\ url.Opaque u' = url.Opaque u
  /\ url.Host u' = url.Host u /\ url.User u' = url.User u
  /\ url.RawQuery u' = url.RawQuery u /\ url.Fragment u' = url.Fragment u.
Proof.
  unfold url.setPath_ignoring_error, url.setPath.
  destruct (url.unescape p url.encodePath); simpl; done.
Qed.

Lemma ResolveReference_Scheme b r :
  url.Scheme (url.ResolveReference b r)
  = if url.Scheme r =s "" then url.Scheme b else url.Scheme r.
Proof.
  unfold url.ResolveReference.
  repeat match goal with
         | |- context [if ?c then _ else _] =>
             lazymatch c with
             | (url.Scheme r =s "") => fail
             | _ => destruct c eqn:?
             end
         | |- context [let '(_, _) := ?c in _] => destruct c
         end; simpl;
    rewrite ?(proj1 (setPath_ignoring_error_fields _ _)); simpl; done.
Qed.

Lemma ResolveReference_authority b r :
  url.Scheme r = EmptyString -> url.Host r = EmptyString -> url.User r = None ->
  url.Opaque r = EmptyString ->
  (url.Opaque b = EmptyString
   \/ (url.Host b = EmptyString /\ url.User b = None)) ->
  url.Host (url.ResolveReference b r) = url.Host b
  /\ url.User (url.ResolveReference b r) = url.User b.
Proof.
  intros Hs Hh Hu Ho Hb. unfold url.ResolveReference.
  rewrite Hs, Hh, Hu, Ho. simpl.
  destruct ((url.Path r =s "") && negb (url.Opaque b =s "")) eqn:Eb.
  - apply andb_true_iff in Eb as [_ Eb]. apply negb_true_iff, String.eqb_neq in Eb.
    destruct Hb as [?|[-> ->]]; [done|].
    repeat match goal with
           | |- context [if ?c then _ else _] => destruct c
           end; done.
  - repeat match goal with
           | |- context [if ?c then _ else _] => destruct c
           end; simpl;
      match goal with
      | |- context [url.setPath_ignoring_error ?u ?p] =>
          destruct (setPath_ignoring_error_fields u p) as (_ & _ & -> & -> & _)
      end; done.
Qed.


Lemma normaliseUrl_go (b : url.URL) (raw : string) :
  HttpFetcher.normaliseUrl (Some b) raw
  = Ret (option_map (url.ResolveReference b) (url.Parse (truncated raw))).
Proof. apply (normaliseUrl_base (lib := GoUrl)). Qed.


(** ** Absolute results *)

(** C8.  For an absolute base [b] (as returned by [url.Parse]), every URL
    that [normaliseUrl] returns is absolute; and for a string [p] that
    parses as a reference without scheme and authority (a relative path),
    [normaliseUrl] returns an absolute URL whose scheme and authority
    (user information and host) are those of [b]. *)
Theorem normaliseUrl_absolute (sb : string) (b : url.URL) :
  url.Parse sb = Some b ->
  url.IsAbs b = true ->
  (forall raw u,
     HttpFetcher.normaliseUrl (Some b) raw = Ret (Some u) -> url.IsAbs u = true)
  /\ (forall p r,
        url.Parse (truncated p) = Some r ->
        url.Scheme r = EmptyString -> url.Host r = EmptyString -> url.User r = None ->
        exists u,
          HttpFetcher.normaliseUrl (Some b) p = Ret (Some u)
          /\ url.IsAbs u = true
          /\ url.Scheme u = url.Scheme b
          /\ url.Host u = url.Host b
          /\ url.User u = url.User b).
Proof.
  intros Hsb Habs. split.
  - intros raw u. rewrite normaliseUrl_go.
    destruct (url.Parse (truncated raw)) as [r|]; simpl; [|done].
    intros [= <-]. unfold url.IsAbs in *. rewrite ResolveReference_Scheme.
    destruct (url.Scheme r =s "") eqn:Er; [done|]. by rewrite Er.
  - intros p r Hp Hs Hh Hu. exists (url.ResolveReference b r).
    split.
    { rewrite normaliseUrl_go. by rewrite Hp. }
    assert (url.Opaque r = EmptyString) as Ho.
    { destruct (Parse_opaque _ _ Hp) as [?|[? _]]; done. }
    assert (url.Opaque b = EmptyString
            \/ url.Host b = EmptyString /\ url.User b = None) as Hb.
    { destruct (Parse_opaque _ _ Hsb) as [?|(_ & ? & ?)]; auto. }
    destruct (ResolveReference_authority b r Hs Hh Hu Ho Hb) as [-> ->].
    unfold url.IsAbs in *. rewrite ResolveReference_Scheme, Hs. simpl.
    done.
Qed.

(** ** A "link" node with an empty href *)


(** ** The scenarios of the specification, run on the model *)

Example scenario_links :
  canonical (HttpFetcher.extractLinks (Some anchorsPage))
  = Ret ["http://example.com/a"; "http://example.com/dir/b"]%string.
Proof. vm_compute. reflexivity. Qed.

Example scenario_stylesheet :
  canonical
    (HttpFetcher.extractAssets
       (Some (page [link [("rel", "stylesheet"); ("type", "text/css"); ("href", "s.css")];
                    link [("rel", "alternate"); ("href", "feed.xml")]]
                   (Some (parsed "http://x.com/")))))
  = Ret ["http://x.com/s.css"%string].
Proof. vm_compute. reflexivity. Qed.

Example scenario_empty_src :
  canonical
    (HttpFetcher.extractAssets
       (Some (page [img [("src", "")]; script []] (Some (parsed "http://x.com/")))))
  = Ret [].
Proof. vm_compute. reflexivity. Qed.

(** A document without origin URL: resolving a relative reference
    dereferences the nil URL. *)
Example extractLinks_nil_origin :
  HttpFetcher.extractLinks (lib := GoUrl) (Some (page [anchor [("href", "/a")]] None))
  = Panic.
Proof. vm_compute. reflexivity. Qed.

(** A base that is not absolute gives results that are not absolute. *)
Example normaliseUrl_relative_base :
  canonical
    (HttpFetcher.extractLinks (Some (page [anchor [("href", "b")]] (Some (parsed "/dir/")))))
  = Ret ["/dir/b"%string].
Proof. vm_compute. reflexivity. Qed.

(** ** Counterexamples to claims as stated *)

(** C2 as stated fails on the nil document: [doc.Find] dereferences it. *)
Lemma extract_nil_document_raises :
  HttpFetcher.extractLinks (lib := GoUrl) None = Panic
  /\ HttpFetcher.extractAssets (lib := GoUrl) None = Panic
  /\ ~ (forall doc, exists r, HttpFetcher.extractLinks (lib := GoUrl) doc = Ret r).
Proof.
  split; [reflexivity|]. split; [reflexivity|].
  intros Hall. destruct (Hall None) as [r Hr]. discriminate Hr.
Qed.

(** C3 as stated fails on an image whose first non-empty [src] does not
    parse and whose second one does: the node still contributes. *)
Lemma img_falls_through_to_later_src :
  let base := parsed "http://x.com/" in
  firstNonEmpty "src" (html.Attr twoSrcImage) = Some "http://["%string
  /\ normalize base "http://[" = None
  /\ srcAssetSpec base (Some twoSrcImage) = None
  /\ canonical (HttpFetcher.extractAssets (Some (page [twoSrcImage] (Some base))))
     = Ret ["http://x.com/ok.png"%string].
Proof. cbv zeta. repeat split; vm_compute; reflexivity. Qed.


(** ** The theorems at concrete inputs *)

Lemma extract_total_on_documents_witness :
  goquery.Url anchorsPage = Some exampleOrigin
  /\ exists urls, HttpFetcher.extractLinks (Some anchorsPage) = Ret (urls, None).
Proof.
  split; [reflexivity|].
  exact (proj1 (extract_total_on_documents anchorsPage exampleOrigin eq_refl)).
Defined.

Lemma extractAssets_src_rule_witness :
  let base := parsed "http://x.com/" in
  let n := Some (img [("src", "/i.png")]) in
  srcAssetSpec base n = Some (parsed "http://x.com/i.png")
  /\ srcAsset base n = Some (parsed "http://x.com/i.png").
Proof.
  cbv zeta.
  assert (srcAssetSpec (parsed "http://x.com/") (Some (img [("src", "/i.png")]))
          = Some (parsed "http://x.com/i.png")) as Hspec
    by (vm_compute; reflexivity).
  split; [exact Hspec|].
  destruct (extractAssets_src_rule (lib := GoUrl) (parsed "http://x.com/"))
    as (_ & _ & _ & Hagree & _).
  exact (Hagree _ _ Hspec).
Defined.

Lemma extractLinks_anchor_rule_witness :
  goquery.Url anchorsPage = Some exampleOrigin
  /\ goquery.Find anchorsPage "a"
     = Some {| goquery.Nodes :=
                 [Some (anchor [("href", "/a")]); Some (anchor [("href", "b")]);
                  Some (anchor [("href", "/a#x")])] |}
  /\ canonical (HttpFetcher.extractLinks (Some anchorsPage))
     = Ret ["http://example.com/a"; "http://example.com/dir/b"]%string.
Proof.
  split; [reflexivity|]. split; [reflexivity|].
  destruct (extractLinks_anchor_rule (lib := GoUrl) exampleOrigin)
    as (_ & _ & _ & _ & _ & Hrun).
  rewrite (Hrun anchorsPage _ eq_refl eq_refl).
  vm_compute. reflexivity.
Defined.

Lemma extractAssets_link_rule_witness :
  let n := link [("rel", "alternate"); ("rel", "stylesheet");
                 ("type", "text/css"); ("href", "s.css")] in
  html.Key {| html.Namespace := ""; html.Key := "rel"; html.Val := "stylesheet" |}
  = "rel"%string
  /\ lastVal "rel" (html.Attr n) = Some "stylesheet"%string.
Proof.
  cbv zeta. split; [reflexivity|].
  destruct (extractAssets_link_rule (lib := GoUrl) exampleOrigin)
    as (_ & Hlast & _).
  apply (Hlast "rel"%string
               [{| html.Namespace := ""; html.Key := "rel"; html.Val := "alternate" |}]
               {| html.Namespace := ""; html.Key := "rel"; html.Val := "stylesheet" |}
               [{| html.Namespace := ""; html.Key := "type"; html.Val := "text/css" |};
                {| html.Namespace := ""; html.Key := "href"; html.Val := "s.css" |}]).
  - reflexivity.
  - intros a' Ha'. repeat (apply elem_of_cons in Ha' as [->|Ha']; [discriminate|]).
    by apply elem_of_nil in Ha'.
Defined.

Lemma dedupeUrls_first_seen_witness :
  let a := parsed "http://x.com/a" in
  let b := parsed "http://x.com/b" in
  url.String a ∈ url.String <$> [a; b]
  /\ HttpFetcher.dedupeUrls [a; b; a] = HttpFetcher.dedupeUrls [a; b].
Proof.
  cbv zeta.
  assert (url.String (parsed "http://x.com/a")
          ∈ url.String <$> [parsed "http://x.com/a"; parsed "http://x.com/b"]) as Hin
    by (rewrite fmap_cons; constructor).
  split; [exact Hin|].
  destruct (dedupeUrls_first_seen (lib := GoUrl)
              [parsed "http://x.com/a"; parsed "http://x.com/b"; parsed "http://x.com/a"])
    as (_ & _ & _ & _ & _ & Hdrop & _).
  exact (Hdrop [parsed "http://x.com/a"; parsed "http://x.com/b"]
               (parsed "http://x.com/a") [] eq_refl Hin).
Defined.

Lemma normaliseUrl_unparseable_witness :
  url.Parse (truncated "http://[") = None
  /\ HttpFetcher.normaliseUrl (lib := GoUrl) None "http://[" = Ret None
  /\ HttpFetcher.normaliseUrl (Some exampleOrigin) "http://[" = Ret None.
Proof.
  assert (url.Parse (truncated "http://[") = None) as Hp by (vm_compute; reflexivity).
  split; [exact Hp|].
  split; exact (proj1 (normaliseUrl_unparseable (lib := GoUrl)) _ "http://["%string Hp).
Defined.

Lemma normaliseUrl_absolute_witness :
  url.Parse "http://example.com/dir/" = Some exampleOrigin
  /\ url.IsAbs exampleOrigin = true
  /\ url.Parse (truncated "b") = Some (parsed "b")
  /\ exists u,
       HttpFetcher.normaliseUrl (Some exampleOrigin) "b" = Ret (Some u)
       /\ url.IsAbs u = true
       /\ url.Scheme u = url.Scheme exampleOrigin
       /\ url.Host u = url.Host exampleOrigin
       /\ url.User u = url.User exampleOrigin.
Proof.
  assert (url.Parse "http://example.com/dir/" = Some exampleOrigin) as Hb
    by (vm_compute; reflexivity).
  assert (url.Parse (truncated "b") = Some (parsed "b")) as Hp
    by (vm_compute; reflexivity).
  split; [exact Hb|]. split; [reflexivity|]. split; [exact Hp|].
  exact (proj2 (normaliseUrl_absolute _ _ Hb eq_refl)
               "b"%string (parsed "b") Hp eq_refl eq_refl eq_refl).
Defined.


Lemma main_extractLinks_last_href_raw_witness :
  let n := anchor [("href", "/x"); ("href", "")] in
  html.Attr n
  = [{| html.Namespace := ""; html.Key := "href"; html.Val := "/x" |}]
      ++ {| html.Namespace := ""; html.Key := "href"; html.Val := "" |} :: []
  /\ lastHrefCandidate n = None.
Proof.
  cbv zeta. split; [reflexivity|].
  destruct (main_extractLinks_last_href_raw (lib := GoUrl)) as (_ & _ & Hskip & _).
  apply (Hskip _ [{| html.Namespace := ""; html.Key := "href"; html.Val := "/x" |}]
               {| html.Namespace := ""; html.Key := "href"; html.Val := "" |} []).
  - reflexivity.
  - reflexivity.
  - reflexivity.
  - intros a' Ha'. by apply elem_of_nil in Ha'.
Defined.

(** * Further properties of the code *)

(** ** [dedupeUrls] *)

Section DedupeMore.

Context {lib : NetUrl}.

Lemma firstOccurrences_fixed (l : list URL) :
  forall before,
    NoDup (URLString <$> l) ->
    (forall u, u ∈ l -> URLString u ∉ before) ->
    firstOccurrences before l = l.
Proof.
  induction l as [|v rest IH]; intros before Hnd Hfresh; [done|].
  rewrite fmap_cons in Hnd. apply NoDup_cons in Hnd as [Hv Hnd].
  cbn [firstOccurrences].
  rewrite bool_decide_eq_false_2 by (apply Hfresh; by left).
  f_equal. apply IH; [done|].
  intros u Hu. rewrite elem_of_app, list_elem_of_singleton.
  intros [Hin|Heq].
  - apply (Hfresh u); [by right|done].
  - apply Hv. rewrite <- Heq. by apply list_elem_of_fmap_2.
Qed.

Lemma firstOccurrences_filter (l : list URL) :
  forall b1 b2,
    firstOccurrences (b1 ++ b2) l
    = filter (fun u => URLString u ∉ b1) (firstOccurrences b2 l).
Proof.
  induction l as [|v rest IH]; intros b1 b2; [done|].
  cbn [firstOccurrences]. rewrite <- app_assoc, IH.
  destruct (decide (URLString v ∈ b2)) as [Hb2|Hb2].
  - rewrite (bool_decide_eq_true_2 (URLString v ∈ b2)) by done.
    rewrite bool_decide_eq_true_2; [done|].
    rewrite elem_of_app. by right.
  - rewrite (bool_decide_eq_false_2 (URLString v ∈ b2)) by done.
    destruct (decide (URLString v ∈ b1)) as [Hb1|Hb1].
    + rewrite bool_decide_eq_true_2 by (rewrite elem_of_app; by left).
      by rewrite filter_cons_False by (intros ?; done).
    + rewrite bool_decide_eq_false_2 by (rewrite elem_of_app; tauto).
      by rewrite filter_cons_True by done.
Qed.

(** X1.  [dedupeUrls] is idempotent, and it leaves a slice unchanged
    exactly when no two of its elements have the same canonical string. *)
Theorem dedupeUrls_idempotent (l : list URL) :
  HttpFetcher.dedupeUrls (HttpFetcher.dedupeUrls l) = HttpFetcher.dedupeUrls l
  /\ (HttpFetcher.dedupeUrls l = l <-> NoDup (URLString <$> l)).
Proof.
  assert (forall k : list URL,
            NoDup (URLString <$> k) -> HttpFetcher.dedupeUrls k = k) as Hfix.
  { intros k Hk. rewrite dedupeUrls_firstOccurrences.
    apply firstOccurrences_fixed; [done|]. by intros u _ ?%elem_of_nil. }
  split.
  - apply Hfix. rewrite dedupeUrls_firstOccurrences. apply firstOccurrences_NoDup.
  - split; [|apply Hfix].
    intros Heq. rewrite <- Heq, dedupeUrls_firstOccurrences.
    apply firstOccurrences_NoDup.
Qed.

(** X2.  Deduplicating a concatenation: the first part is deduplicated on
    its own, and of the deduplicated second part exactly the elements
    whose canonical string already occurs in the first part are removed. *)
Theorem dedupeUrls_app (l1 l2 : list URL) :
  HttpFetcher.dedupeUrls (l1 ++ l2)
  = HttpFetcher.dedupeUrls l1
    ++ filter (fun u => URLString u ∉ URLString <$> l1) (HttpFetcher.dedupeUrls l2).
Proof.
  rewrite !dedupeUrls_firstOccurrences, firstOccurrences_app. f_equal.
  rewrite <- (firstOccurrences_filter l2 (URLString <$> l1) []).
  by rewrite app_nil_l, app_nil_r.
Qed.

(** X3.  [dedupeUrls] neither invents nor loses a URL: the canonical
    strings of the output are exactly those of the input, every output
    element is an input element, and the output is not longer than the
    input. *)
Theorem dedupeUrls_same_strings (l : list URL) :
  (forall k, k ∈ URLString <$> HttpFetcher.dedupeUrls l <-> k ∈ URLString <$> l)
  /\ (forall u, u ∈ HttpFetcher.dedupeUrls l -> u ∈ l)
  /\ (length (HttpFetcher.dedupeUrls l) <= length l)%nat.
Proof.
  rewrite dedupeUrls_firstOccurrences.
  pose proof (firstOccurrences_sublist l []) as Hsub.
  split; [|split].
  - intros k. split.
    + intros (u & -> & Hu)%list_elem_of_fmap. apply list_elem_of_fmap_2.
      by apply (elem_of_sublist _ _ _ Hu Hsub).
    + intros (u & -> & Hu)%list_elem_of_fmap.
      apply firstOccurrences_complete; [done|]. by intros ?%elem_of_nil.
  - intros u Hu. by apply (elem_of_sublist _ _ _ Hu Hsub).
  - by apply sublist_length.
Qed.

End DedupeMore.

(** ** The string that [normaliseUrl] parses *)

Lemma CountByte_app (s t : string) (c : ascii) :
  strings.CountByte (s ++ t) c = strings.CountByte s c + strings.CountByte t c.
Proof.
  induction s as [|c' s IH].
  - by rewrite append_empty.
  - rewrite append_cons. cbn [strings.CountByte]. rewrite IH. lia.
Qed.

Lemma split_last_hash (raw : string) :
  0 < strings.CountByte raw "#" ->
  exists s f, raw = (s ++ String "#" f)%string /\ strings.CountByte f "#" = 0.
Proof.
  induction raw as [|c r IH]; cbn [strings.CountByte]; [lia|].
  intros Hpos. pose proof (CountByte_nonneg r "#") as Hr.
  destruct (decide (0 < strings.CountByte r "#")) as [Hgt|Hle].
  - destruct (IH Hgt) as (s & f & -> & Hf).
    exists (String c s), f. by rewrite append_cons.
  - assert (strings.CountByte r "#" = 0) as Hzero by lia.
    destruct (Ascii.eqb c "#") eqn:Ec; [|lia].
    apply Ascii.eqb_eq in Ec as ->.
    exists EmptyString, r. by rewrite append_empty.
Qed.

(** X4.  The string that [normaliseUrl] hands to the parser is the raw
    string up to its last ['#']: a string without ['#'] is parsed as it is,
    otherwise the removed tail is ['#'] followed by a ['#']-free rest, so
    the parsed string has exactly one ['#'] fewer than the raw one.  When
    the raw string has at most one ['#'], normalizing the cut string gives
    the same result as normalizing the raw string. *)
Theorem normaliseUrl_parses_up_to_last_hash `{lib : NetUrl} (raw : string) :
  (strings.CountByte raw "#" = 0 -> truncated raw = raw)
  /\ (0 < strings.CountByte raw "#" ->
      exists f, raw = (truncated raw ++ String "#" f)%string
                /\ strings.CountByte f "#" = 0)
  /\ strings.CountByte (truncated raw) "#"
     = Z.max 0 (strings.CountByte raw "#" - 1)
  /\ (strings.CountByte raw "#" <= 1 ->
      forall parent,
        HttpFetcher.normaliseUrl parent (truncated raw)
        = HttpFetcher.normaliseUrl parent raw).
Proof.
  pose proof (CountByte_nonneg raw "#") as Hnn.
  assert (0 < strings.CountByte raw "#" ->
          exists f, raw = (truncated raw ++ String "#" f)%string
                    /\ strings.CountByte f "#" = 0
                    /\ strings.CountByte (truncated raw) "#"
                       = strings.CountByte raw "#" - 1) as Hcut.
  { intros (s & f & -> & Hf)%split_last_hash.
    rewrite truncated_append_fragment by done.
    exists f. split; [done|]. split; [done|].
    rewrite CountByte_app. cbn [strings.CountByte]. simpl. lia. }
  split; [apply truncated_hash_free|].
  split.
  { intros Hpos. destruct (Hcut Hpos) as (f & ? & ? & _). eauto. }
  split.
  { destruct (decide (0 < strings.CountByte raw "#")) as [Hpos|Hzero].
    - destruct (Hcut Hpos) as (f & _ & _ & ->). lia.
    - rewrite truncated_hash_free by lia. lia. }
  intros Hle parent.
  assert (strings.CountByte (truncated raw) "#" = 0) as Hfree.
  { destruct (decide (0 < strings.CountByte raw "#")) as [Hpos|Hzero].
    - destruct (Hcut Hpos) as (f & _ & _ & ->). lia.
    - rewrite truncated_hash_free by lia. lia. }
  unfold HttpFetcher.normaliseUrl.
  fold (truncated (truncated raw)). fold (truncated raw).
  by rewrite (truncated_hash_free _ Hfree).
Qed.

(** ** The errors of [extractValidHref] *)

Section HrefErrors.

Context {lib : NetUrl}.

Lemma firstNonEmpty_None (key : string) (attrs : list html.Attribute) :
  firstNonEmpty key attrs = None <->
  forall a, a ∈ attrs -> html.Key a = key -> html.Val a = EmptyString.
Proof.
  unfold firstNonEmpty. split.
  - destruct (List.find _ attrs) as [a0|] eqn:E; [done|]. intros _ a Ha.
    apply href_test_false.
    apply (List.find_none _ _ E). by apply list_elem_of_In.
  - intros Hall.
    destruct (List.find _ attrs) as [a0|] eqn:E; [|done].
    apply List.find_some in E as [Hin E].
    apply href_test_spec in E as [Hk Hv].
    exfalso. apply Hv. apply Hall; [by apply list_elem_of_In|done].
Qed.

(** X5.  [extractValidHref] fails with [InvalidNode] exactly for a nil
    node and for a node that is not an element with the anchor atom, and
    with [InvalidNodeAttributeMissing] exactly for an anchor element none
    of whose [href] attributes has a non-empty value.  It returns the
    empty string together with every error, and a non-empty string when
    the error is nil. *)
Theorem extractValidHref_errors (n : option html.Node) :
  ((HttpFetcher.extractValidHref n).2 = Some InvalidNode <->
   n = None
   \/ exists m, n = Some m
                /\ (html.Type_ m <> html.ElementNode \/ html.DataAtom m <> atom.A))
  /\ ((HttpFetcher.extractValidHref n).2 = Some InvalidNodeAttributeMissing <->
      exists m, n = Some m
                /\ html.Type_ m = html.ElementNode /\ html.DataAtom m = atom.A
                /\ forall a, a ∈ html.Attr m -> html.Key a = "href"%string ->
                             html.Val a = EmptyString)
  /\ (forall e, (HttpFetcher.extractValidHref n).2 = Some e ->
                (HttpFetcher.extractValidHref n).1 = EmptyString
                /\ (e = InvalidNode \/ e = InvalidNodeAttributeMissing))
  /\ ((HttpFetcher.extractValidHref n).2 = None ->
      (HttpFetcher.extractValidHref n).1 <> EmptyString).
Proof.
  rewrite extractValidHref_candidate.
  destruct n as [m|]; simpl.
  2:{ split; [split; [auto|done]|]. split; [|split].
      - split; [done|]. by intros (m & ? & _).
      - intros e [= <-]. auto.
      - done. }
  destruct (isAnchor m) eqn:Em.
  - apply isAnchor_spec in Em as [Ht Ha].
    destruct (firstNonEmpty "href" (html.Attr m)) as [v|] eqn:Ev; simpl.
    + split.
      { split; [done|]. intros [?|(m' & [= <-] & [?|?])]; done. }
      split.
      { split; [done|]. intros (m' & [= <-] & _ & _ & Hall).
        apply firstNonEmpty_None in Hall. congruence. }
      split; [done|]. intros _. by apply (firstNonEmpty_nonempty "href" _ _ Ev).
    + split.
      { split; [done|]. intros [?|(m' & [= <-] & [?|?])]; done. }
      split.
      { split; [|done]. intros _. exists m. repeat split; try done.
        by apply firstNonEmpty_None. }
      split; [|done]. intros e [= <-]. auto.
  - assert (html.Type_ m <> html.ElementNode \/ html.DataAtom m <> atom.A) as Hnot.
    { unfold isAnchor in Em. apply andb_false_iff in Em as [Et|Ea].
      - left. intros Ht. by rewrite Ht in Et.
      - right. by apply N.eqb_neq. }
    split.
    { split; [|done]. intros _. right. by exists m. }
    split.
    { split; [done|]. intros (m' & [= <-] & Ht & Ha & _). by destruct Hnot. }
    split; [|done]. intros e [= <-]. auto.
Qed.

End HrefErrors.

(** ** [Fetch] *)

Section FetchFacts.

Context {lib : NetUrl}.

Lemma extractLinks_no_error (doc : option goquery.Document) urls err :
  HttpFetcher.extractLinks doc = Ret (urls, err) -> err = None.
Proof.
  unfold HttpFetcher.extractLinks. destruct doc as [d|]; simpl; [|done].
  destruct (goquery.Find d "a") as [sel|]; [|by intros [= _ <-]].
  destruct (HttpFetcher.linksLoop _ _ _); simpl; [by intros [= _ <-]|done].
Qed.

Lemma extractAssets_no_error (doc : option goquery.Document) assets err :
  HttpFetcher.extractAssets doc = Ret (assets, err) -> err = None.
Proof.
  unfold HttpFetcher.extractAssets. destruct doc as [d|]; simpl; [|done].
  destruct (goquery.Find d "img") as [s1|]; simpl; [|done].
  destruct (HttpFetcher.srcNodes _ _ _) as [l1|]; simpl; [|done].
  destruct (goquery.Find d "script") as [s2|]; simpl; [|done].
  destruct (HttpFetcher.srcNodes _ _ _) as [l2|]; simpl; [|done].
  destruct (goquery.Find d "link") as [s3|]; simpl; [|done].
  destruct (HttpFetcher.linkNodes _ _ _) as [l3|]; simpl; [|done].
  by intros [= _ <-].
Qed.

(** X6.  The only error [Fetch] ever returns is the one of
    [goquery.NewDocument], and it returns it with nil slices and without
    looking at the document; neither extraction ever reports an error.  A
    nil target raises. *)
Theorem Fetch_error_is_NewDocument_error
        (NewDocument : string -> option goquery.Document * option error)
        (target : option URL) :
  HttpFetcher.Fetch NewDocument None = Panic
  /\ (forall t doc e,
        NewDocument (URLString t) = (doc, Some e) ->
        HttpFetcher.Fetch NewDocument (Some t) = Ret ([], [], Some e))
  /\ (forall urls assets e,
        HttpFetcher.Fetch NewDocument target = Ret (urls, assets, Some e) ->
        exists t doc,
          target = Some t /\ NewDocument (URLString t) = (doc, Some e)
          /\ urls = [] /\ assets = [])
  /\ (forall doc urls err,
        HttpFetcher.extractLinks doc = Ret (urls, err) -> err = None)
  /\ (forall doc assets err,
        HttpFetcher.extractAssets doc = Ret (assets, err) -> err = None).
Proof.
  split; [done|].
  split.
  { intros t doc e Hnew. unfold HttpFetcher.Fetch. simpl. by rewrite Hnew. }
  split.
  { intros urls assets e. unfold HttpFetcher.Fetch.
    destruct target as [t|]; simpl; [|done].
    destruct (NewDocument (URLString t)) as [doc [e'|]] eqn:Hnew; simpl.
    - intros [= <- <- <-]. by exists t, doc.
    - destruct (HttpFetcher.extractLinks doc) as [[us er]|] eqn:El; simpl; [|done].
      rewrite (extractLinks_no_error _ _ _ El). simpl.
      destruct (HttpFetcher.extractAssets doc) as [[as' er']|] eqn:Ea; simpl; [|done].
      rewrite (extractAssets_no_error _ _ _ Ea). simpl. done. }
  split; [apply extractLinks_no_error|apply extractAssets_no_error].
Qed.

(** X7.  When [goquery.NewDocument] reports no error, [Fetch] returns the
    links of [extractLinks] and the assets of [extractAssets] on the
    document it got, with a nil error; it raises when one of the two
    raises, as both do on the nil document. *)
Theorem Fetch_returns_both_extractions
        (NewDocument : string -> option goquery.Document * option error)
        (t : URL) (doc : option goquery.Document) :
  NewDocument (URLString t) = (doc, None) ->
  (forall urls e1 assets e2,
     HttpFetcher.extractLinks doc = Ret (urls, e1) ->
     HttpFetcher.extractAssets doc = Ret (assets, e2) ->
     HttpFetcher.Fetch NewDocument (Some t) = Ret (urls, assets, None))
  /\ (HttpFetcher.extractLinks doc = Panic ->
      HttpFetcher.Fetch NewDocument (Some t) = Panic)
  /\ (HttpFetcher.extractAssets doc = Panic ->
      HttpFetcher.Fetch NewDocument (Some t) = Panic)
  /\ (doc = None -> HttpFetcher.Fetch NewDocument (Some t) = Panic).
Proof.
  intros Hnew. unfold HttpFetcher.Fetch. simpl. rewrite Hnew. simpl.
  split.
  { intros urls e1 assets e2 El Ea.
    rewrite El. simpl. rewrite (extractLinks_no_error _ _ _ El). simpl.
    rewrite Ea. simpl. by rewrite (extractAssets_no_error _ _ _ Ea). }
  split; [by intros ->|].
  split.
  { intros Ea.
    destruct (HttpFetcher.extractLinks doc) as [[us er]|] eqn:El; simpl; [|done].
    rewrite (extractLinks_no_error _ _ _ El). simpl. by rewrite Ea. }
  by intros ->.
Qed.

(** X8.  [extractAssets] has no guard for a nil selection: on a document
    with its origin URL set, it raises as soon as one of its three tag
    queries returns nil, whereas [extractLinks] answers a nil selection of
    the anchor query with no links. *)
Theorem extractAssets_nil_selection_raises (d : goquery.Document) (b : URL) :
  goquery.Url d = Some b ->
  (goquery.Find d "img" = None \/ goquery.Find d "script" = None
   \/ goquery.Find d "link" = None ->
   HttpFetcher.extractAssets (Some d) = Panic)
  /\ (goquery.Find d "a" = None ->
      HttpFetcher.extractLinks (Some d) = Ret ([], None)).
Proof.
  intros Hb. split.
  - intros Hnil. unfold HttpFetcher.extractAssets. simpl. rewrite Hb.
    destruct (goquery.Find d "img") as [s1|]; simpl; [|done].
    rewrite srcNodes_base. simpl.
    destruct (goquery.Find d "script") as [s2|]; simpl; [|done].
    rewrite srcNodes_base. simpl.
    destruct (goquery.Find d "link") as [s3|]; simpl; [|done].
    by destruct Hnil as [?|[?|?]].
  - intros Ha. unfold HttpFetcher.extractLinks. simpl. by rewrite Ha.
Qed.

End FetchFacts.

(** ** [main.go]: nil nodes and errors *)

Section MainMore.

Context {lib : NetUrl}.

Lemma main_nodesLoop_panic (nodes : list (option html.Node)) :
  forall urls, Main.nodesLoop nodes urls = Panic <-> None ∈ nodes.
Proof.
  induction nodes as [|n rest IH]; intros urls; simpl.
  - split; [done|]. by intros ?%elem_of_nil.
  - rewrite elem_of_cons. destruct n as [m|]; simpl.
    + destruct (negb _ || negb _).
      * rewrite IH. split; [auto|]. by intros [?|?].
      * destruct (Main.hrefLoop _ _ =s ""); rewrite IH;
          (split; [auto|]; by intros [?|?]).
    + split; [auto|done].
Qed.

(** X9.  The [extractLinks] of [main.go] reads [n.Type] without a nil
    test: given a non-nil document and a non-nil selection it raises
    exactly when the selection holds a nil node, whatever the origin URL
    (which it never reads); a nil selection gives no links and a nil
    document raises. *)
Theorem main_extractLinks_raises_on_nil_node (d : goquery.Document) :
  (forall sel,
     goquery.Find d "a" = Some sel ->
     (Main.extractLinks (Some d) = Panic <-> None ∈ goquery.Nodes sel))
  /\ (goquery.Find d "a" = None -> Main.extractLinks (Some d) = Ret ([], None))
  /\ Main.extractLinks (lib := lib) None = Panic.
Proof.
  split; [|split; [|done]].
  - intros sel Hsel. unfold Main.extractLinks. simpl. rewrite Hsel.
    rewrite <- (main_nodesLoop_panic (goquery.Nodes sel) []).
    by destruct (Main.nodesLoop (goquery.Nodes sel) []).
  - intros Hsel. unfold Main.extractLinks. simpl. by rewrite Hsel.
Qed.

(** X10.  [fetch] of [main.go] returns an error only when
    [goquery.NewDocument] does, and then with no URLs and without looking
    at the document; its first result is always the empty string. *)
Theorem main_fetch_error_is_NewDocument_error
        (NewDocument : string -> option goquery.Document * option error)
        (url : string) :
  (forall doc e,
     NewDocument url = (doc, Some e) ->
     Main.fetch NewDocument url = Ret (EmptyString, [], Some e))
  /\ (forall s urls e,
        Main.fetch NewDocument url = Ret (s, urls, Some e) ->
        exists doc, NewDocument url = (doc, Some e) /\ urls = [])
  /\ (forall s urls err,
        Main.fetch NewDocument url = Ret (s, urls, err) -> s = EmptyString).
Proof.
  unfold Main.fetch.
  destruct (NewDocument url) as [doc [e'|]] eqn:Hnew; simpl.
  - split; [by intros doc' e [= <- <-]|].
    split.
    + intros s urls e [= <- <- <-]. by exists doc.
    + by intros s urls err [= <- _ _].
  - split; [done|].
    destruct (Main.extractLinks doc) as [[us er]|] eqn:El; simpl; [|done].
    rewrite (main_extractLinks_no_error _ _ _ El). simpl.
    split; [done|]. by intros s urls err [= <- _ _].
Qed.

End MainMore.

(** ** The two [extractLinks] compared *)

Section TwoExtractLinks.

Context {lib : NetUrl}.

Lemma firstNonEmpty_single_href (attrs : list html.Attribute) :
  (length (filter (fun a => html.Key a = "href"%string) attrs) <= 1)%nat ->
  firstNonEmpty "href" attrs
  = match lastVal "href" attrs with
    | Some v => if v =s "" then None else Some v
    | None => None
    end.
Proof.
  induction attrs as [|a rest IH]; [done|].
  rewrite filter_cons. case_decide as Hk.
  - cbn [length]. intros Hlen.
    assert (forall a', a' ∈ rest -> html.Key a' <> "href"%string) as Hnone.
    { intros a' Ha' Hk'.
      assert (a' ∈ filter (fun a0 => html.Key a0 = "href"%string) rest) as Hin
        by (apply list_elem_of_filter; done).
      destruct (filter _ rest); [by apply elem_of_nil in Hin|simpl in Hlen; lia]. }
    cbn [lastVal]. rewrite (proj2 (lastVal_none "href" rest) Hnone).
    rewrite (proj2 (String.eqb_eq _ _) Hk).
    unfold firstNonEmpty. cbn [List.find].
    rewrite (proj2 (String.eqb_eq _ _) Hk). simpl.
    destruct (html.Val a =s ""); simpl; [|done].
    change (firstNonEmpty "href" rest = None).
    apply firstNonEmpty_None. intros a' Ha' Hk'. by destruct (Hnone a' Ha').
  - intros Hlen. cbn [lastVal].
    rewrite (proj2 (String.eqb_neq _ _) Hk).
    unfold firstNonEmpty. cbn [List.find].
    rewrite (proj2 (String.eqb_neq _ _) Hk). simpl.
    change (firstNonEmpty "href" rest
            = match match lastVal "href" rest with
                    | Some v => Some v
                    | None => None
                    end with
              | Some v => if v =s "" then None else Some v
              | None => None
              end).
    rewrite IH by done. by destruct (lastVal "href" rest).
Qed.

Lemma candidates_agree (n : html.Node) :
  (length (filter (fun a => html.Key a = "href"%string) (html.Attr n)) <= 1)%nat ->
  anchorCandidate (Some n) = lastHrefCandidate n.
Proof.
  intros Hn. unfold lastHrefCandidate. simpl.
  destruct (isAnchor n); [|done].
  rewrite firstNonEmpty_single_href by done.
  by destruct (lastVal "href" (html.Attr n)).
Qed.

(** X11.  On a document whose anchor nodes are non-nil and carry at most
    one [href] attribute each, the two [extractLinks] pick the same raw
    values: the links of the fetcher are the deduplicated normalizations
    of the strings that the [extractLinks] of [main.go] returns. *)
Theorem extractLinks_normalizes_main_links
        (d : goquery.Document) (b : URL) (sel : goquery.Selection)
        (ns : list html.Node) :
  goquery.Url d = Some b ->
  goquery.Find d "a" = Some sel ->
  goquery.Nodes sel = Some <$> ns ->
  (forall n, n ∈ ns ->
     (length (filter (fun a => html.Key a = "href"%string) (html.Attr n)) <= 1)%nat) ->
  exists raw,
    Main.extractLinks (Some d) = Ret (raw, None)
    /\ HttpFetcher.extractLinks (Some d)
       = Ret (HttpFetcher.dedupeUrls (omap (normalize b) raw), None).
Proof.
  intros Hb Hsel Hns Hsingle.
  exists (omap lastHrefCandidate ns). split.
  - unfold Main.extractLinks. simpl.
    by rewrite Hsel, Hns, main_nodesLoop_candidates.
  - rewrite (extractLinks_base d b sel) by done. rewrite Hns.
    assert (omap (linkOf b) (Some <$> ns)
            = omap (normalize b) (omap lastHrefCandidate ns)) as ->; [|done].
    clear Hns Hsel.
    induction ns as [|n rest IH]; [done|].
    rewrite fmap_cons. cbn [omap list_omap].
    unfold linkOf at 1. rewrite candidates_agree by (apply Hsingle; by left).
    rewrite IH by (intros n' Hn'; apply Hsingle; by right).
    destruct (lastHrefCandidate n) as [h|]; simpl; [|done].
    by destruct (normalize b h).
Qed.

End TwoExtractLinks.

(** ** The order and the number of the results *)

Section OrderAndSize.

Context {lib : NetUrl}.

Lemma length_omap_le {A B} (f : A -> option B) (l : list A) :
  (length (omap f l) <= length l)%nat.
Proof.
  induction l as [|x l IH]; [done|].
  change (omap f (x :: l))
    with (match f x with Some y => y :: omap f l | None => omap f l end).
  destruct (f x); cbn [length]; lia.
Qed.

Lemma dedupe_app_filter (l1 l2 : list URL) :
  HttpFetcher.dedupeUrls (l1 ++ l2)
  = HttpFetcher.dedupeUrls l1
    ++ filter (fun u => URLString u ∉ URLString <$> l1) (HttpFetcher.dedupeUrls l2).
Proof.
  rewrite !dedupeUrls_firstOccurrences, firstOccurrences_app. f_equal.
  rewrite <- (firstOccurrences_filter l2 (URLString <$> l1) []).
  by rewrite app_nil_l, app_nil_r.
Qed.

(** X12.  The assets come in the order of the three passes: first the
    deduplicated image assets, then the script assets whose canonical
    string is not that of an image asset, then the "link" assets whose
    canonical string is that of neither; an asset found by several passes
    stays where the earliest pass put it. *)
Theorem extractAssets_pass_order
        (d : goquery.Document) (b : URL) (imgs scripts links : goquery.Selection) :
  goquery.Url d = Some b ->
  goquery.Find d "img" = Some imgs ->
  goquery.Find d "script" = Some scripts ->
  goquery.Find d "link" = Some links ->
  let I := omap (srcAsset b) (goquery.Nodes imgs) in
  let S := omap (srcAsset b) (goquery.Nodes scripts) in
  let L := omap (linkAsset b) (goquery.Nodes links) in
  HttpFetcher.extractAssets (Some d)
  = Ret (HttpFetcher.dedupeUrls I
         ++ filter (fun u => URLString u ∉ URLString <$> I) (HttpFetcher.dedupeUrls S)
         ++ filter (fun u => URLString u ∉ URLString <$> I)
              (filter (fun u => URLString u ∉ URLString <$> S)
                      (HttpFetcher.dedupeUrls L)),
         None).
Proof.
  intros Hb Hi Hs Hl I S L.
  rewrite (extractAssets_base d b imgs scripts links) by done.
  fold I S L. by rewrite !dedupe_app_filter, filter_app.
Qed.

(** X13.  A queried node gives at most one result: there are at most as
    many links as nodes of the anchor query, and at most as many assets as
    nodes of the three asset queries together. *)
Theorem extraction_sizes (d : goquery.Document) (b : URL) :
  goquery.Url d = Some b ->
  (forall sel urls err,
     goquery.Find d "a" = Some sel ->
     HttpFetcher.extractLinks (Some d) = Ret (urls, err) ->
     (length urls <= length (goquery.Nodes sel))%nat)
  /\ (forall imgs scripts links assets err,
        goquery.Find d "img" = Some imgs ->
        goquery.Find d "script" = Some scripts ->
        goquery.Find d "link" = Some links ->
        HttpFetcher.extractAssets (Some d) = Ret (assets, err) ->
        (length assets
         <= length (goquery.Nodes imgs) + length (goquery.Nodes scripts)
            + length (goquery.Nodes links))%nat).
Proof.
  intros Hb. split.
  - intros sel urls err Hsel. rewrite (extractLinks_base d b sel) by done.
    intros [= <- _]. rewrite dedupeUrls_firstOccurrences.
    etrans; [apply sublist_length, firstOccurrences_sublist|].
    apply length_omap_le.
  - intros imgs scripts links assets err Hi Hs Hl.
    rewrite (extractAssets_base d b imgs scripts links) by done.
    intros [= <- _]. rewrite dedupeUrls_firstOccurrences.
    etrans; [apply sublist_length, firstOccurrences_sublist|].
    rewrite !length_app.
    pose proof (length_omap_le (srcAsset b) (goquery.Nodes imgs)).
    pose proof (length_omap_le (srcAsset b) (goquery.Nodes scripts)).
    pose proof (length_omap_le (linkAsset b) (goquery.Nodes links)).
    lia.
Qed.

End OrderAndSize.

(** ** Later attributes and fragment variants *)

Section Variants.

Context {lib : NetUrl}.

(** X14.  In the "link" pass every [href] overwrites the URL found so
    far, also with nil: a node whose last [href] does not normalize
    contributes nothing, even when an earlier [href] of the node does
    normalize (the image and script passes would go on to another [src]). *)
Theorem link_last_href_unparseable_drops_node
        (b : URL) (n : html.Node) (pre post : list html.Attribute)
        (a : html.Attribute) :
  html.Attr n = pre ++ a :: post ->
  html.Key a = "href"%string ->
  (forall a', a' ∈ post -> html.Key a' <> "href"%string) ->
  normalize b (html.Val a) = None ->
  linkAsset b (Some n) = None
  /\ forall nodes1 nodes2 assets,
       HttpFetcher.linkNodes (Some b) (nodes1 ++ Some n :: nodes2) assets
       = HttpFetcher.linkNodes (Some b) (nodes1 ++ nodes2) assets.
Proof.
  intros Hattr Hk Hpost Hnorm.
  assert (linkAsset b (Some n) = None) as Hnone.
  { simpl. rewrite Hattr, (lastVal_last "href" pre post a) by done. simpl.
    by rewrite Hnorm. }
  split; [done|].
  intros nodes1 nodes2 assets. rewrite !linkNodes_base, !omap_app.
  cbn [omap list_omap]. by rewrite Hnone.
Qed.

Lemma dedupe_drop_repeat (p q : list URL) (u : URL) :
  URLString u ∈ URLString <$> p ->
  HttpFetcher.dedupeUrls (p ++ u :: q) = HttpFetcher.dedupeUrls (p ++ q).
Proof.
  intros Hin.
  rewrite !dedupeUrls_firstOccurrences, !firstOccurrences_app.
  cbn [firstOccurrences]. rewrite bool_decide_eq_true_2 by done. f_equal.
  apply firstOccurrences_ext. intros k.
  rewrite elem_of_app, list_elem_of_singleton. split; [|tauto].
  by intros [?| ->].
Qed.

Lemma normalize_fragment_free (b : URL) (s f : string) :
  strings.CountByte s "#" = 0 -> strings.CountByte f "#" = 0 ->
  normalize b (s ++ String "#" f) = normalize b s.
Proof.
  intros Hs Hf. unfold normalize.
  by rewrite truncated_append_fragment, truncated_hash_free.
Qed.

(** X15.  Fragment variants collapse: when an anchor's candidate is that
    of an earlier anchor followed by ['#'] and a fragment (neither string
    holding another ['#']), the later anchor adds nothing; the links are
    those of the document without it. *)
Theorem extractLinks_fragment_variant_adds_nothing
        (d d' : goquery.Document) (b : URL) (sel sel' : goquery.Selection)
        (pre mid post : list (option html.Node)) (n1 n2 : option html.Node)
        (s f : string) :
  goquery.Url d = Some b -> goquery.Url d' = Some b ->
  goquery.Find d "a" = Some sel -> goquery.Find d' "a" = Some sel' ->
  goquery.Nodes sel = pre ++ n1 :: mid ++ n2 :: post ->
  goquery.Nodes sel' = pre ++ n1 :: mid ++ post ->
  anchorCandidate n1 = Some s ->
  anchorCandidate n2 = Some (s ++ String "#" f)%string ->
  strings.CountByte s "#" = 0 -> strings.CountByte f "#" = 0 ->
  HttpFetcher.extractLinks (Some d) = HttpFetcher.extractLinks (Some d').
Proof.
  intros Hb Hb' Hsel Hsel' Hn Hn' H1 H2 Hs Hf.
  rewrite (extractLinks_base d b sel), (extractLinks_base d' b sel') by done.
  rewrite Hn, Hn'. do 2 f_equal.
  assert (linkOf b n2 = linkOf b n1) as Hsame.
  { unfold linkOf. rewrite H1, H2. simpl. by apply normalize_fragment_free. }
  rewrite !omap_app. cbn [omap list_omap]. rewrite !omap_app.
  cbn [omap list_omap]. rewrite Hsame.
  destruct (linkOf b n1) as [u|]; [|done].
  set (P := omap (linkOf b) pre). set (M := omap (linkOf b) mid).
  set (Q := omap (linkOf b) post).
  replace (P ++ u :: M ++ u :: Q) with ((P ++ u :: M) ++ u :: Q)
    by (by rewrite <- app_assoc).
  replace (P ++ u :: M ++ Q) with ((P ++ u :: M) ++ Q)
    by (by rewrite <- app_assoc).
  apply dedupe_drop_repeat.
  rewrite fmap_app, fmap_cons, elem_of_app, elem_of_cons. right. by left.
Qed.

End Variants.

(** ** The further properties at concrete inputs *)

Lemma dedupeUrls_idempotent_witness :
  let l := [parsed "http://x.com/a"; parsed "http://x.com/b"] in
  NoDup (url.String <$> l) /\ HttpFetcher.dedupeUrls l = l.
Proof.
  cbv zeta.
  assert (NoDup (url.String <$> [parsed "http://x.com/a"; parsed "http://x.com/b"]))
    as Hnd by (apply (@bool_decide_unpack _ (NoDup_dec _)); vm_compute; exact I).
  split; [exact Hnd|].
  exact (proj2 (proj2 (dedupeUrls_idempotent (lib := GoUrl) _)) Hnd).
Defined.

Lemma dedupeUrls_same_strings_witness :
  let a := parsed "http://x.com/a" in
  a ∈ HttpFetcher.dedupeUrls [a; a] /\ a ∈ [a; a].
Proof.
  cbv zeta.
  assert (parsed "http://x.com/a"
          ∈ HttpFetcher.dedupeUrls [parsed "http://x.com/a"; parsed "http://x.com/a"])
    as Hin by (vm_compute; constructor).
  split; [exact Hin|].
  exact (proj1 (proj2 (dedupeUrls_same_strings (lib := GoUrl) _)) _ Hin).
Defined.

Lemma normaliseUrl_parses_up_to_last_hash_witness :
  strings.CountByte "/a#x" "#" <= 1
  /\ HttpFetcher.normaliseUrl (Some exampleOrigin) (truncated "/a#x")
     = HttpFetcher.normaliseUrl (Some exampleOrigin) "/a#x".
Proof.
  assert (strings.CountByte "/a#x" "#" <= 1) as Hle by (vm_compute; discriminate).
  split; [exact Hle|].
  exact (proj2 (proj2 (proj2 (normaliseUrl_parses_up_to_last_hash (lib := GoUrl) "/a#x")))
               Hle (Some exampleOrigin)).
Defined.

Lemma extractValidHref_errors_witness :
  let n := anchor [("href", "")] in
  (forall a, a ∈ html.Attr n -> html.Key a = "href"%string -> html.Val a = EmptyString)
  /\ (HttpFetcher.extractValidHref (Some n)).2 = Some InvalidNodeAttributeMissing.
Proof.
  cbv zeta.
  assert (forall a, a ∈ html.Attr (anchor [("href", "")]) ->
                    html.Key a = "href"%string -> html.Val a = EmptyString) as Hall.
  { intros a [->|Ha]%elem_of_cons; [done|]. by apply elem_of_nil in Ha. }
  split; [exact Hall|].
  apply (proj1 (proj2 (extractValidHref_errors (Some (anchor [("href", "")]))))).
  exists (anchor [("href", "")]). repeat split. exact Hall.
Defined.

Lemma Fetch_error_is_NewDocument_error_witness :
  let NewDocument := fun _ : string =>
                       (@None (goquery.Document (lib := GoUrl)),
                        Some (OtherError "no such host")) in
  NewDocument (url.String exampleOrigin) = (None, Some (OtherError "no such host"))
  /\ HttpFetcher.Fetch NewDocument (Some exampleOrigin)
     = Ret ([], [], Some (OtherError "no such host")).
Proof.
  cbv zeta. split; [reflexivity|].
  exact (proj1 (proj2 (Fetch_error_is_NewDocument_error (lib := GoUrl)
                         (fun _ => (None, Some (OtherError "no such host"))) None))
               exampleOrigin None (OtherError "no such host") eq_refl).
Defined.

Lemma Fetch_returns_both_extractions_witness :
  let NewDocument := fun _ : string => (Some anchorsPage, @None error) in
  NewDocument (url.String exampleOrigin) = (Some anchorsPage, None)
  /\ exists urls assets,
       HttpFetcher.extractLinks (Some anchorsPage) = Ret (urls, None)
       /\ HttpFetcher.extractAssets (Some anchorsPage) = Ret (assets, None)
       /\ HttpFetcher.Fetch NewDocument (Some exampleOrigin) = Ret (urls, assets, None).
Proof.
  cbv zeta. split; [reflexivity|].
  assert (exists urls, HttpFetcher.extractLinks (Some anchorsPage) = Ret (urls, None))
    as [urls Hl] by (eexists; vm_compute; reflexivity).
  assert (exists assets, HttpFetcher.extractAssets (Some anchorsPage) = Ret (assets, None))
    as [assets Ha] by (eexists; vm_compute; reflexivity).
  exists urls, assets. split; [exact Hl|]. split; [exact Ha|].
  exact (proj1 (Fetch_returns_both_extractions (lib := GoUrl)
                  (fun _ => (Some anchorsPage, None)) exampleOrigin
                  (Some anchorsPage) eq_refl)
               urls None assets None Hl Ha).
Defined.

Lemma extractAssets_nil_selection_raises_witness :
  let d := {| goquery.Find := fun _ => None; goquery.Url := Some exampleOrigin |} in
  goquery.Url d = Some exampleOrigin
  /\ goquery.Find d "img" = None
  /\ HttpFetcher.extractAssets (Some d) = Panic.
Proof.
  cbv zeta. split; [reflexivity|]. split; [reflexivity|].
  exact (proj1 (extractAssets_nil_selection_raises
                  {| goquery.Find := fun _ => None; goquery.Url := Some exampleOrigin |}
                  exampleOrigin eq_refl)
               (or_introl eq_refl)).
Defined.

Lemma main_extractLinks_raises_on_nil_node_witness :
  let sel := {| goquery.Nodes := [Some (anchor [("href", "/a")]); None] |} in
  let d := {| goquery.Find := fun _ => Some sel; goquery.Url := Some exampleOrigin |} in
  goquery.Find d "a" = Some sel
  /\ None ∈ goquery.Nodes sel
  /\ Main.extractLinks (Some d) = Panic.
Proof.
  cbv zeta. split; [reflexivity|].
  assert (None ∈ goquery.Nodes
                   {| goquery.Nodes := [Some (anchor [("href", "/a")]); None] |})
    as Hin by (right; left).
  split; [exact Hin|].
  exact (proj2 (proj1 (main_extractLinks_raises_on_nil_node (lib := GoUrl)
                         {| goquery.Find := fun _ =>
                              Some {| goquery.Nodes :=
                                        [Some (anchor [("href", "/a")]); None] |};
                            goquery.Url := Some exampleOrigin |})
                      {| goquery.Nodes := [Some (anchor [("href", "/a")]); None] |}
                      eq_refl) Hin).
Defined.

Lemma main_fetch_error_is_NewDocument_error_witness :
  let NewDocument := fun _ : string =>
                       (@None (goquery.Document (lib := GoUrl)),
                        Some (OtherError "no such host")) in
  NewDocument "http://golang.org/"%string = (None, Some (OtherError "no such host"))
  /\ Main.fetch NewDocument "http://golang.org/"
     = Ret (EmptyString, [], Some (OtherError "no such host")).
Proof.
  cbv zeta. split; [reflexivity|].
  exact (proj1 (main_fetch_error_is_NewDocument_error (lib := GoUrl)
                  (fun _ => (None, Some (OtherError "no such host")))
                  "http://golang.org/")
               None (OtherError "no such host") eq_refl).
Defined.

Lemma extractLinks_normalizes_main_links_witness :
  let ns := [anchor [("href", "/a")]; anchor [("href", "b")]; anchor [("href", "/a#x")]] in
  (forall n, n ∈ ns ->
     (length (filter (fun a => html.Key a = "href"%string) (html.Attr n)) <= 1)%nat)
  /\ exists raw,
       Main.extractLinks (Some anchorsPage) = Ret (raw, None)
       /\ HttpFetcher.extractLinks (Some anchorsPage)
          = Ret (HttpFetcher.dedupeUrls (omap (normalize exampleOrigin) raw), None).
Proof.
  cbv zeta.
  assert (forall n,
            n ∈ [anchor [("href", "/a")]; anchor [("href", "b")];
                 anchor [("href", "/a#x")]] ->
            (length (filter (fun a => html.Key a = "href"%string) (html.Attr n))
             <= 1)%nat) as Hsingle.
  { intros n Hn.
    repeat (apply elem_of_cons in Hn as [->|Hn]; [vm_compute; lia|]).
    by apply elem_of_nil in Hn. }
  split; [exact Hsingle|].
  exact (extractLinks_normalizes_main_links (lib := GoUrl)
           anchorsPage exampleOrigin
           {| goquery.Nodes :=
                Some <$> [anchor [("href", "/a")]; anchor [("href", "b")];
                          anchor [("href", "/a#x")]] |}
           [anchor [("href", "/a")]; anchor [("href", "b")];
            anchor [("href", "/a#x")]]
           eq_refl eq_refl eq_refl Hsingle).
Defined.

Lemma extractAssets_pass_order_witness :
  goquery.Url assetsPage = Some (parsed "http://x.com/")
  /\ canonical (HttpFetcher.extractAssets (Some assetsPage))
     = Ret ["http://x.com/i.png"; "http://x.com/s.js"; "http://x.com/s.css"]%string.
Proof.
  split; [reflexivity|].
  rewrite (extractAssets_pass_order (lib := GoUrl) assetsPage (parsed "http://x.com/")
             _ _ _ eq_refl eq_refl eq_refl eq_refl).
  vm_compute. reflexivity.
Defined.

Lemma extraction_sizes_witness :
  goquery.Url anchorsPage = Some exampleOrigin
  /\ forall sel urls err,
       goquery.Find anchorsPage "a" = Some sel ->
       HttpFetcher.extractLinks (Some anchorsPage) = Ret (urls, err) ->
       (length urls <= length (goquery.Nodes sel))%nat.
Proof.
  split; [reflexivity|].
  exact (proj1 (extraction_sizes (lib := GoUrl) anchorsPage exampleOrigin eq_refl)).
Defined.

Lemma link_last_href_unparseable_drops_node_witness :
  let b := parsed "http://x.com/" in
  let n := link [("rel", "stylesheet"); ("type", "text/css");
                 ("href", "s.css"); ("href", "http://[")] in
  normalize b "s.css" = Some (parsed "http://x.com/s.css")
  /\ normalize b "http://[" = None
  /\ linkAsset b (Some n) = None.
Proof.
  cbv zeta. split; [vm_compute; reflexivity|].
  assert (normalize (parsed "http://x.com/") "http://[" = None) as Hnone
    by (vm_compute; reflexivity).
  split; [exact Hnone|].
  refine (proj1 (link_last_href_unparseable_drops_node (lib := GoUrl)
                   (parsed "http://x.com/")
                   (link [("rel", "stylesheet"); ("type", "text/css");
                          ("href", "s.css"); ("href", "http://[")])
                   [{| html.Namespace := ""; html.Key := "rel"; html.Val := "stylesheet" |};
                    {| html.Namespace := ""; html.Key := "type"; html.Val := "text/css" |};
                    {| html.Namespace := ""; html.Key := "href"; html.Val := "s.css" |}]
                   []
                   {| html.Namespace := ""; html.Key := "href"; html.Val := "http://[" |}
                   eq_refl eq_refl _ Hnone)).
  intros a' Ha'. by apply elem_of_nil in Ha'.
Defined.

Lemma extractLinks_fragment_variant_adds_nothing_witness :
  let d' := page [anchor [("href", "/a")]; anchor [("href", "b")]] (Some exampleOrigin) in
  anchorCandidate (Some (anchor [("href", "/a#x")])) = Some ("/a" ++ String "#" "x")%string
  /\ HttpFetcher.extractLinks (Some anchorsPage) = HttpFetcher.extractLinks (Some d').
Proof.
  cbv zeta. split; [reflexivity|].
  exact (extractLinks_fragment_variant_adds_nothing (lib := GoUrl)
           anchorsPage
           (page [anchor [("href", "/a")]; anchor [("href", "b")]] (Some exampleOrigin))
           exampleOrigin _ _
           [] [Some (anchor [("href", "b")])] []
           (Some (anchor [("href", "/a")])) (Some (anchor [("href", "/a#x")]))
           "/a" "x"
           eq_refl eq_refl eq_refl eq_refl eq_refl eq_refl eq_refl eq_refl
           eq_refl eq_refl).
Defined.
